(** * Data-ingestion cloud function: handler, storage adapter and entry point

    Shallow embedding of [data-ingestion/main.py],
    [data-ingestion/modules/handler.py] and [data-ingestion/modules/gcs.py].

    - Python [str] is [string]; one [ascii] stands for one code point
      below 256.
    - The event payload ([Dict[str, Any]]) is a [gmap string PyVal], the
      values being the JSON values: null, booleans, numbers, strings,
      arrays and objects.
    - Effects are threaded through a state-and-exception monad over a
      [World]: the objects held by the storage service, the reader that
      turns a stored content into the text a text-mode read returns, the
      library calls issued so far, and the records handed to [logging]
      (all of them, whatever level the root logger is set to). *)

From Stdlib Require Import Ascii String.
From stdpp Require Import base option list strings gmap.

Open Scope string_scope.

(** ** Python string primitives used by the handler *)

Module PyStrOps.

(** [c in s] for a one-character [c]. *)
Fixpoint contains_char (c : ascii) (s : string) : bool :=
  match s with
  | EmptyString => false
  | String d r => Ascii.eqb d c || contains_char c r
  end.

(** Position-free search for the last separator: the text before it and
    the text after it, or [None] when the separator does not occur. *)
Fixpoint rsplit_last (sep : ascii) (s : string) : option (string * string) :=
  match s with
  | EmptyString => None
  | String c r =>
      match rsplit_last sep r with
      | Some (p, q) => Some (String c p, q)
      | None => if Ascii.eqb c sep then Some (EmptyString, r) else None
      end
  end.

(** [s.rsplit(sep, 1)]: at most one split, taken from the right. *)
Definition rsplit1 (sep : ascii) (s : string) : list string :=
  match rsplit_last sep s with
  | Some (p, q) => [p; q]
  | None => [s]
  end.

(** [s.split(sep)] for a one-character separator. *)
Fixpoint split (sep : ascii) (s : string) : list string :=
  match s with
  | EmptyString => [EmptyString]
  | String c r =>
      if Ascii.eqb c sep then EmptyString :: split sep r
      else match split sep r with
           | x :: xs => String c x :: xs
           | [] => [String c EmptyString]
           end
  end.

(** [sep.join(l)], the inverse reading of [split]. *)
Fixpoint join (sep : ascii) (l : list string) : string :=
  match l with
  | [] => EmptyString
  | [x] => x
  | x :: xs => x ++ String sep (join sep xs)
  end.

(** [str.isspace] on the code points below 256: TAB..CR, FS..US, space,
    NEL and the no-break space. *)
Definition is_space (c : ascii) : bool :=
  let n := nat_of_ascii c in
  (Nat.leb 9 n && Nat.leb n 13) || (Nat.leb 28 n && Nat.leb n 32)
  || Nat.eqb n 133 || Nat.eqb n 160.

Fixpoint lstrip (s : string) : string :=
  match s with
  | EmptyString => EmptyString
  | String c r => if is_space c then lstrip r else s
  end.

Fixpoint rstrip (s : string) : string :=
  match s with
  | EmptyString => EmptyString
  | String c r =>
      match rstrip r with
      | EmptyString => if is_space c then EmptyString else String c EmptyString
      | r' => String c r'
      end
  end.

(** [s.strip()] *)
Definition strip (s : string) : string := rstrip (lstrip s).

(** Every character of [s] is whitespace. *)
Fixpoint all_space (s : string) : bool :=
  match s with
  | EmptyString => true
  | String c r => is_space c && all_space r
  end.

End PyStrOps.

Import PyStrOps.

(** ** Values, payloads and the observable world *)

(** The values a decoded JSON payload carries for a key: [null], a
    boolean, a number (an [int], or a [float] given by the 64 bits of its
    IEEE 754 double), a string, an array and an object with its keys in
    order. *)
#[warnings="-register-all"]
Inductive PyVal : Type :=
| PyNone
| PyBool (b : bool)
| PyInt (z : Z)
| PyFloat (bits : Z)
| PyStr (s : string)
| PyList (l : list PyVal)
| PyDict (d : list (string * PyVal)).

(** A [str] is a value. *)
Coercion PyStr : string >-> PyVal.

(** The event payload, [Dict[str, Any]]. *)
Abbreviation Payload := (gmap string PyVal).

(** [d.get(k, dflt)] *)
Definition dict_get (d : Payload) (k : string) (dflt : PyVal) : PyVal :=
  default dflt (d !! k).

(** Exceptions that can travel through the code. *)
Inductive Exn : Type :=
| TypeError
| AttributeError
| ValueError
| NotFound
| ServiceError (detail : string).

Inductive Result (A : Type) : Type :=
| Ok (a : A)
| Raise (e : Exn).
Arguments Ok {A} a.
Arguments Raise {A} e.

(** Calls into the storage library, with the names they are given. *)
Inductive Call : Type :=
| CClient                                   (* storage.Client() *)
| CBucket (bucket : string)                 (* client.bucket(bucket) *)
| CBlob (bucket blob : string)              (* bucket.blob(blob) *)
| COpenRead (bucket blob encoding : string) (* blob.open("r", ...) ; f.read() *)
| CCopy (sbucket sblob tbucket tblob : string) (* source_bucket.copy_blob(...) *)
| CDelete (bucket blob : string).           (* source_blob.delete() *)

Inductive Level : Type := DEBUG | INFO | WARNING | ERROR.

(** One constructor per logging statement, carrying the interpolated values. *)
Inductive LogMsg : Type :=
(* main.py *)
| M_invoked
| M_complete
(* handler.py *)
| H_received (bucket_name blob_name : PyVal)
| H_ignore_bucket (bucket_name : PyVal)
| H_folder_check (folder_path : string)
| H_ignore_blob (blob_name : PyVal)
| H_validated (bucket_name blob_name : string)
| H_read_ok (len : nat)
| H_sample (lines : list string)
| H_move_failed (target_blob_name : string)
| H_fetch_failed
| H_finished
(* gcs.py *)
| G_client_init
| G_validating (context : string) (bucket_name blob_name : option string)
| G_names_missing (context : string)
| G_ref_error (bucket_name blob_name : string) (e : Exn)
| G_ref_created (bucket_name blob_name : string)
| G_skip_read
| G_reading (blob_name encoding : string)
| G_read_ok
| G_read_failed (blob_name : string) (e : Exn)
| G_same_location
| G_moving (sbucket sblob tbucket tblob : string)
| G_copy_done
| G_move_ok
| G_move_failed (e : Exn).

(** What an invocation can observe and change.  [objects] holds the
    content of each object as it is stored, byte by byte.  [faults]
    decides, from the calls issued so far, whether the service rejects
    the next call (credentials, network, a content that does not decode,
    ...); a rejected call has no effect on [objects].  [logs] holds the
    records handed to [logging] in order, each with its level, before any
    filtering by the level of the root logger.  [text_of encoding stored]
    is the text that a text-mode read under [encoding] yields for the
    stored content: the decoding together with the translation of line
    ends that the reader applies. *)
Record World : Type := mkWorld {
  objects : gmap (string * string) string;
  faults : list Call → Call → option Exn;
  calls : list Call;
  logs : list (Level * LogMsg);
  text_of : string → string → string;
}.

Definition set_objects (o : gmap (string * string) string) (w : World) : World :=
  mkWorld o (faults w) (calls w) (logs w) (text_of w).
Definition add_call (c : Call) (w : World) : World :=
  mkWorld (objects w) (faults w) (calls w ++ [c]) (logs w) (text_of w).
Definition add_log (l : Level) (m : LogMsg) (w : World) : World :=
  mkWorld (objects w) (faults w) (calls w) (logs w ++ [(l, m)]) (text_of w).

(** ** The state-and-exception monad *)

Definition M (A : Type) : Type := World → Result A * World.

Global Instance M_ret : MRet M := λ A a w, (Ok a, w).

Global Instance M_bind : MBind M := λ A B f m w,
  match m w with
  | (Ok a, w') => f a w'
  | (Raise e, w') => (Raise e, w')
  end.

(** [raise e] *)
Definition raise {A} (e : Exn) : M A := λ w, (Raise e, w).

(** [try: body / except Exception as e: handler e] *)
Definition try_except {A} (body : M A) (handler : Exn → M A) : M A := λ w,
  match body w with
  | (Ok a, w') => (Ok a, w')
  | (Raise e, w') => handler e w'
  end.

(** [log.<level>(msg)] *)
Definition log (l : Level) (m : LogMsg) : M unit := λ w, (Ok tt, add_log l m w).

(** ** The storage service *)

(** A library call is recorded when issued; the service may reject it. *)
Definition issue (c : Call) : M unit := λ w,
  match faults w (calls w) c with
  | Some e => (Raise e, add_call c w)
  | None => (Ok tt, add_call c w)
  end.

(** The service's own state: lookup, write and removal of an object. *)
Definition lookup_object (bucket blob : string) : M (option string) :=
  λ w, (Ok (objects w !! (bucket, blob)), w).
Definition store_object (bucket blob text : string) : M unit :=
  λ w, (Ok tt, set_objects (<[(bucket, blob) := text]> (objects w)) w).
Definition remove_object (bucket blob : string) : M unit :=
  λ w, (Ok tt, set_objects (delete (bucket, blob) (objects w)) w).

(** The text a reader opened under [encoding] hands back for a stored content. *)
Definition decoded (encoding stored : string) : M string :=
  λ w, (Ok (text_of w encoding stored), w).

(** Streaming text read of a whole object: [blob.open("r", encoding=...)]
    and [f.read()]. *)
Definition open_read (bucket blob encoding : string) : M string :=
  issue (COpenRead bucket blob encoding);;
  o ← lookup_object bucket blob;
  match o with
  | Some stored => decoded encoding stored
  | None => raise NotFound
  end.

(** Server-side copy of an object. *)
Definition copy_blob (sbucket sblob tbucket tblob : string) : M unit :=
  issue (CCopy sbucket sblob tbucket tblob);;
  o ← lookup_object sbucket sblob;
  match o with
  | Some text => store_object tbucket tblob text
  | None => raise NotFound
  end.

(** Deletion of an object. *)
Definition delete_blob (bucket blob : string) : M unit :=
  issue (CDelete bucket blob);;
  o ← lookup_object bucket blob;
  match o with
  | Some _ => remove_object bucket blob
  | None => raise NotFound
  end.

(** ** modules/gcs.py: the storage adapter *)

(** Truthiness of an [Optional[str]]: [None] and the empty string are falsy. *)
Definition truthy (o : option string) : bool :=
  match o with
  | Some s => negb (String.eqb s "")
  | None => false
  end.

(** [a or b] on [Optional[str]] operands. *)
Definition py_or (a b : option string) : option string :=
  if truthy a then a else b.

(** [a or c] where [c] is known to be a [str]. *)
Definition py_or_str (a : option string) (c : string) : string :=
  match a with
  | Some s => if String.eqb s "" then c else s
  | None => c
  end.

(** Instance state set by [__init__]. *)
Record GCSClient : Type := mkGCSClient {
  self_bucket_name : option string;   (* self.bucket_name *)
  self_blob_name : option string;     (* self.blob_name *)
}.

(** A blob reference: the bucket it was taken from and its [name]. *)
Record Blob : Type := mkBlob {
  bucket : string;
  name : string;
}.

Definition GCSClient_init (bucket_name blob_name : option string) : M GCSClient :=
  issue CClient;;
  log DEBUG G_client_init;;
  mret (mkGCSClient bucket_name blob_name).

Definition _get_validated_names (self : GCSClient)
    (bucket_name blob_name : option string) (context : string)
    : M (option (string * string)) :=
  let target_bucket_name := py_or bucket_name self.(self_bucket_name) in
  let target_blob_name := py_or blob_name self.(self_blob_name) in
  log DEBUG (G_validating context target_bucket_name target_blob_name);;
  match target_bucket_name, target_blob_name with
  | Some b, Some n => mret (Some (b, n))
  | _, _ => log ERROR (G_names_missing context);; mret None
  end.

Definition _get_blob_or_none (self : GCSClient) (bucket_name blob_name : string)
    : M (option Blob) :=
  try_except
    (issue (CBucket bucket_name);;
     issue (CBlob bucket_name blob_name);;
     mret (Some (mkBlob bucket_name blob_name)))
    (λ e, log ERROR (G_ref_error bucket_name blob_name e);; mret None).

Definition get_blob (self : GCSClient) (bucket_name blob_name : option string)
    : M (option Blob) :=
  names ← _get_validated_names self bucket_name blob_name "get_blob";
  match names with
  | None => mret None
  | Some (target_bucket_name, target_blob_name) =>
      blob ← _get_blob_or_none self target_bucket_name target_blob_name;
      match blob with
      | Some _ => log INFO (G_ref_created target_bucket_name target_blob_name)
      | None => mret tt
      end;;
      mret blob
  end.

Definition get_blob_content (self : GCSClient)
    (bucket_name blob_name : option string) (encoding : string)
    : M (option string) :=
  blob ← get_blob self bucket_name blob_name;
  match blob with
  | None => log WARNING G_skip_read;; mret None
  | Some blob =>
      log DEBUG (G_reading blob.(name) encoding);;
      try_except
        (content ← open_read blob.(bucket) blob.(name) encoding;
         log INFO G_read_ok;;
         mret (Some content))
        (λ e, log ERROR (G_read_failed blob.(name) e);; mret None)
  end.

Definition move_blob (self : GCSClient)
    (source_bucket_name source_blob_name target_bucket_name target_blob_name : option string)
    : M bool :=
  source_names ← _get_validated_names self source_bucket_name source_blob_name
                    "move_blob source";
  match source_names with
  | None => mret false
  | Some (_source_bucket_name, _source_blob_name) =>
      let _target_bucket_name :=
        py_or_str (py_or target_bucket_name self.(self_bucket_name)) _source_bucket_name in
      let _target_blob_name := py_or_str target_blob_name _source_blob_name in
      if String.eqb _source_blob_name _target_blob_name
         && String.eqb _source_bucket_name _target_bucket_name
      then log WARNING G_same_location;; mret false
      else
        log INFO (G_moving _source_bucket_name _source_blob_name
                           _target_bucket_name _target_blob_name);;
        try_except
          (issue (CBucket _source_bucket_name);;
           issue (CBucket _target_bucket_name);;
           issue (CBlob _source_bucket_name _source_blob_name);;
           copy_blob _source_bucket_name _source_blob_name
                     _target_bucket_name _target_blob_name;;
           log DEBUG G_copy_done;;
           delete_blob _source_bucket_name _source_blob_name;;
           log INFO G_move_ok;;
           mret true)
          (λ e, log ERROR (G_move_failed e);; mret false)
  end.

(** ** modules/handler.py *)

Definition SOURCE_BUCKET : string := "supply-chain-compensation-analysis-with-nlp".
Definition SOURCE_FOLDER : string := "raw_data".
Definition TARGET_FOLDER : string := "processed_data".

Definition SLASH : ascii := "/"%char.
Definition LF : ascii := "010"%char.

(** [v != s] for a payload value and a [str]: a value of another type is
    never equal to a [str].  The result is the value as a [str] when the
    comparison finds them equal. *)
Definition equal_str (v : PyVal) (s : string) : option string :=
  match v with
  | PyStr t => if String.eqb t s then Some t else None
  | _ => None
  end.

(** [a, b = l] *)
Definition unpack2 (l : list string) : M (string * string) :=
  match l with
  | [a; b] => mret (a, b)
  | _ => raise ValueError
  end.

(** The list comprehension of the processing step. *)
Definition raw_data (blob_data : string) : list string :=
  filter (λ line, strip line ≠ "") (split LF blob_data).

(** [v == '/'] for an element of a list: only that string is equal to it. *)
Definition is_slash (v : PyVal) : bool :=
  match v with
  | PyStr s => String.eqb s "/"
  | _ => false
  end.

(** ['/' in v]: the substring test on a [str], the membership test among
    the elements of a list and among the keys of a dict; [None], booleans
    and numbers are not iterable. *)
Definition contains_slash (v : PyVal) : M bool :=
  match v with
  | PyStr s => mret (contains_char SLASH s)
  | PyList l => mret (existsb is_slash l)
  | PyDict d => mret (existsb (λ kv, String.eqb kv.1 "/") d)
  | PyNone | PyBool _ | PyInt _ | PyFloat _ => raise TypeError
  end.

(** [v.rsplit('/', 1)]: a method of [str] alone. *)
Definition rsplit_slash (v : PyVal) : M (list string) :=
  match v with
  | PyStr s => mret (rsplit1 SLASH s)
  | _ => raise AttributeError
  end.

(** [folder_path, blob_path = blob_name.rsplit('/', 1) if '/' in blob_name
    else ("", blob_name)].  The folder path is a [str] in either branch;
    the other part is the value itself when the test finds no slash. *)
Definition name_parts (blob_name : PyVal) : M (string * PyVal) :=
  has_slash ← contains_slash blob_name;
  if (has_slash : bool)
  then l ← rsplit_slash blob_name;
       p ← unpack2 l;
       mret (p.1, PyStr p.2)
  else mret ("", blob_name).

(** The storage adapter is typed over [str] names.  Past the folder filter
    both names are strings: the folder path equals [SOURCE_FOLDER], which
    is not empty, only when [rsplit] has cut it off a [str]
    ([name_parts_folder]); the handler's last part is therefore entered
    through a match on the two values, whose other branch is never taken
    ([handler_unfold] for a name that is a string, [handler_non_string]
    for any other). *)
Definition handle_gcs_event_data (data : Payload) : M unit :=
  let bucket_name := dict_get data "bucket" (PyStr "") in
  let blob_name := dict_get data "name" (PyStr "") in
  parts ← name_parts blob_name;
  let folder_path := parts.1 in
  let blob_path := parts.2 in
  log INFO (H_received bucket_name blob_name);;
  match equal_str bucket_name SOURCE_BUCKET with
  | None => log INFO (H_ignore_bucket bucket_name)
  | Some bucket_name =>
      log DEBUG (H_folder_check folder_path);;
      if negb (String.eqb folder_path SOURCE_FOLDER)
      then log INFO (H_ignore_blob blob_name)
      else
        match blob_name, blob_path with
        | PyStr blob_name, PyStr blob_path =>
            log INFO (H_validated bucket_name blob_name);;
            gcs_client ← GCSClient_init (Some bucket_name) (Some blob_name);
            blob_data ← get_blob_content gcs_client None None "utf-8";
            match blob_data with
            | Some blob_data =>
                log INFO (H_read_ok (String.length blob_data));;
                log INFO (H_sample (take 5 (raw_data blob_data)));;
                let target_blob_name := TARGET_FOLDER ++ "/" ++ blob_path in
                move_success ← move_blob gcs_client None None
                                 (Some bucket_name) (Some target_blob_name);
                if negb move_success
                then log ERROR (H_move_failed target_blob_name)
                else mret tt
            | None => log ERROR H_fetch_failed
            end;;
            log INFO H_finished
        | _, _ => raise TypeError
        end
  end.

(** ** main.py *)

Definition data_ingest_process (data : Payload) : M unit :=
  log INFO M_invoked;;
  handle_gcs_event_data data;;
  log INFO M_complete.

(** ** Derived notions used to state the properties *)

(** The names [_get_validated_names] settles on, read off its two [or]
    expressions and its [is None] test. *)
Definition validated_names (self : GCSClient) (bucket_name blob_name : option string)
    : option (string * string) :=
  match py_or bucket_name self.(self_bucket_name),
        py_or blob_name self.(self_blob_name) with
  | Some b, Some n => Some (b, n)
  | _, _ => None
  end.

(** The target [move_blob] settles on for a validated source. *)
Definition target_names (self : GCSClient) (target_bucket_name target_blob_name : option string)
    (source : string * string) : string * string :=
  (py_or_str (py_or target_bucket_name self.(self_bucket_name)) source.1,
   py_or_str target_blob_name source.2).

(** The service was not contacted between [w] and [w']: same calls, same
    objects, same fault plan (only the log may have grown). *)
Definition no_contact (w w' : World) : Prop :=
  calls w' = calls w ∧ objects w' = objects w ∧ faults w' = faults w.

(** The calls issued between [w] and [w']. *)
Definition new_calls (w w' : World) : list Call := drop (length (calls w)) (calls w').

(** The log records written between [w] and [w']. *)
Definition new_logs (w w' : World) : list (Level * LogMsg) :=
  drop (length (logs w)) (logs w').

(** The content ["a\n\n b \n"]. *)
Definition sample_content : string :=
  "a" ++ String LF (String LF (" b " ++ String LF "")).

(** The calls of a relocation that runs to its end. *)
Definition move_calls (sb sn tb tn : string) : list Call :=
  [CBucket sb; CBucket tb; CBlob sb sn; CCopy sb sn tb tn; CDelete sb sn].

(** The fault plan [f] lets the calls [cs] through, one after the other,
    when [hist] has been issued before them. *)
Fixpoint accepted (f : list Call → Call → option Exn) (hist cs : list Call) : Prop :=
  match cs with
  | [] => True
  | c :: cs' => f hist c = None ∧ accepted f (hist ++ [c]) cs'
  end.

Global Instance Exn_eq_dec : EqDecision Exn.
Proof. solve_decision. Defined.
Global Instance Call_eq_dec : EqDecision Call.
Proof. solve_decision. Defined.

(** Fault plans and worlds for concrete runs. *)
Definition no_faults : list Call → Call → option Exn := λ _ _, None.
Definition reject (c : Call) (e : Exn) : list Call → Call → option Exn :=
  λ _ c', if decide (c' = c) then Some e else None.

Definition demo_objects : gmap (string * string) string :=
  {[ (SOURCE_BUCKET, "raw_data/a.txt") := sample_content ]}.
(** The reader applied to content in plain ASCII: whatever the encoding
    (of those that extend ASCII), the text is the stored content with the
    line ends [\r\n] and [\r] turned into [\n]. *)
Definition CR : ascii := "013"%char.
Fixpoint universal_newlines (s : string) : string :=
  match s with
  | EmptyString => EmptyString
  | String c r =>
      if Ascii.eqb c CR
      then match r with
           | String d r' =>
               if Ascii.eqb d LF then String LF (universal_newlines r')
               else String LF (universal_newlines r)
           | EmptyString => String LF EmptyString
           end
      else String c (universal_newlines r)
  end.
Definition ascii_text : string → string → string :=
  λ _ stored, universal_newlines stored.

Definition demo_world : World := mkWorld demo_objects no_faults [] [] ascii_text.
Definition demo_event : Payload :=
  {[ "bucket" := PyStr SOURCE_BUCKET; "name" := PyStr "raw_data/a.txt" ]}.
Definition demo_client : GCSClient :=
  mkGCSClient (Some SOURCE_BUCKET) (Some "raw_data/a.txt").

(** The two names the handler derives from the object name: the text
    before its last slash (empty without a slash) and the text after it. *)
Definition folder_path (blob_name : string) : string :=
  match rsplit_last SLASH blob_name with
  | Some (p, _) => p
  | None => ""
  end.
Definition blob_path (blob_name : string) : string :=
  match rsplit_last SLASH blob_name with
  | Some (_, q) => q
  | None => blob_name
  end.

(** The payload's [name], when the key is absent or holds a [str]. *)
Definition name_of (data : Payload) : option string :=
  match dict_get data "name" (PyStr "") with
  | PyStr n => Some n
  | _ => None
  end.

(** The handler past its two filters: steps 3 to 6 of [handle_gcs_event_data]
    for a validated bucket and object name. *)
Definition processing (bucket_name blob_name : string) : M unit :=
  gcs_client ← GCSClient_init (Some bucket_name) (Some blob_name);
  blob_data ← get_blob_content gcs_client None None "utf-8";
  match blob_data with
  | Some blob_data =>
      log INFO (H_read_ok (String.length blob_data));;
      log INFO (H_sample (take 5 (raw_data blob_data)));;
      let target_blob_name := TARGET_FOLDER ++ "/" ++ blob_path blob_name in
      move_success ← move_blob gcs_client None None
                       (Some bucket_name) (Some target_blob_name);
      if negb move_success
      then log ERROR (H_move_failed target_blob_name)
      else mret tt
  | None => log ERROR H_fetch_failed
  end;;
  log INFO H_finished.

(** Steps 3 and 4 alone: the client is built from the notification and the
    content is fetched with every argument left to its default. *)
Definition content_fetch (bucket_name blob_name : string) : M (option string) :=
  gcs_client ← GCSClient_init (Some bucket_name) (Some blob_name);
  get_blob_content gcs_client None None "utf-8".

(** The calls of a content fetch that runs to its end. *)
Definition fetch_calls (b n : string) : list Call :=
  [CClient; CBucket b; CBlob b n; COpenRead b n "utf-8"].

(** The record [move_blob] writes when it sets out to copy. *)
Definition is_moving (r : Level * LogMsg) : bool :=
  match r.2 with
  | G_moving _ _ _ _ => true
  | _ => false
  end.

(** Calls that change the stored objects. *)
Definition is_write (c : Call) : bool :=
  match c with
  | CCopy _ _ _ _ | CDelete _ _ => true
  | _ => false
  end.

(** A world in which the service refuses to delete the demo object. *)
Definition delete_refused : Exn := ServiceError "delete refused".
Definition delete_refused_world : World :=
  mkWorld demo_objects
    (reject (CDelete SOURCE_BUCKET "raw_data/a.txt") delete_refused) [] [] ascii_text.
Definition demo_target : string := "processed_data/a.txt".

(** A client whose defaults name another object, and one without defaults. *)
Definition other_client : GCSClient :=
  mkGCSClient (Some SOURCE_BUCKET) (Some "raw_data/x.txt").
Definition bare_client : GCSClient := mkGCSClient None None.

(** Further payloads and worlds for concrete runs. *)
Definition other_event : Payload :=
  {[ "bucket" := PyStr "another-bucket"; "name" := PyStr "raw_data/a.txt" ]}.
Definition empty_world : World := mkWorld ∅ no_faults [] [] ascii_text.

Definition null_name_event : Payload :=
  {[ "bucket" := PyStr SOURCE_BUCKET; "name" := PyNone ]}.
Definition credentials_missing : Exn := ServiceError "no credentials".
Definition client_refused_world : World :=
  mkWorld demo_objects (reject CClient credentials_missing) [] [] ascii_text.

(** The numeric value of a level, and the records of a log that a root
    logger set to [threshold] writes out ([main.py] asks for [INFO]). *)
Definition level_no (l : Level) : nat :=
  match l with
  | DEBUG => 10
  | INFO => 20
  | WARNING => 30
  | ERROR => 40
  end.
Definition emitted (threshold : Level) (ls : list (Level * LogMsg))
    : list (Level * LogMsg) :=
  List.filter (λ r, Nat.leb (level_no threshold) (level_no r.1)) ls.

(** The three records the handler writes before [processing]. *)
Definition validated_logs (n : string) : list (Level * LogMsg) :=
  [(INFO, H_received (PyStr SOURCE_BUCKET) n);
   (DEBUG, H_folder_check SOURCE_FOLDER);
   (INFO, H_validated SOURCE_BUCKET n)].

(** A fault plan that refuses the first delete of the demo object and
    lets every later call through. *)
Definition refuse_first_delete : list Call → Call → option Exn :=
  λ hist c,
    if decide (c = CDelete SOURCE_BUCKET "raw_data/a.txt")
    then if decide (c ∈ hist) then None else Some delete_refused
    else None.
Definition flaky_world : World :=
  mkWorld demo_objects refuse_first_delete [] [] ascii_text.

(** * Properties *)

(** ** Facts about the string primitives *)

Section StringFacts.

Variable sep : ascii.

Lemma rsplit_last_None (s : string) :
  rsplit_last sep s = None ↔ contains_char sep s = false.
Proof.
  induction s as [|c r IH]; simpl; [done|].
  destruct (rsplit_last sep r) as [[p q]|].
  - split; [done|]. intros H. apply orb_false_iff in H as [_ H].
    apply IH in H. done.
  - destruct (Ascii.eqb c sep); simpl; [done|]. split; [|done].
    intros _. by apply IH.
Qed.

Lemma rsplit_last_Some (s p q : string) :
  rsplit_last sep s = Some (p, q) →
  s = p ++ String sep q ∧ contains_char sep q = false.
Proof.
  revert p q. induction s as [|c r IH]; intros p q; simpl; [done|].
  destruct (rsplit_last sep r) as [[p' q']|] eqn:E.
  - intros [= <- <-]. destruct (IH _ _ eq_refl) as [-> Hq]. done.
  - destruct (Ascii.eqb_spec c sep) as [->|]; [|done].
    intros [= <- <-]. split; [done|]. by apply rsplit_last_None.
Qed.

(** When the separator occurs, [rsplit(sep, 1)] has exactly two parts:
    the text before the last separator and the separator-free rest. *)
Lemma rsplit1_contains (s : string) :
  contains_char sep s = true →
  ∃ p q, rsplit1 sep s = [p; q] ∧ s = p ++ String sep q
         ∧ contains_char sep q = false.
Proof.
  intros H. unfold rsplit1.
  destruct (rsplit_last sep s) as [[p q]|] eqn:E.
  - exists p, q. split; [done|]. by apply rsplit_last_Some.
  - apply rsplit_last_None in E. congruence.
Qed.

Lemma split_not_nil (s : string) : split sep s ≠ [].
Proof.
  destruct s as [|c r]; simpl; [done|].
  destruct (Ascii.eqb c sep); [done|]. by destruct (split sep r).
Qed.

Lemma join_split (s : string) : join sep (split sep s) = s.
Proof.
  induction s as [|c r IH]; [done|]. simpl.
  pose proof (split_not_nil r) as Hne.
  destruct (Ascii.eqb_spec c sep) as [->|_].
  - destruct (split sep r) as [|x xs]; [done|].
    change (join sep ("" :: x :: xs)) with ("" ++ String sep (join sep (x :: xs))).
    by rewrite IH.
  - destruct (split sep r) as [|x xs]; [done|].
    destruct xs as [|y ys]; simpl in *; by rewrite <- IH.
Qed.

Lemma split_no_sep (s x : string) :
  x ∈ split sep s → contains_char sep x = false.
Proof.
  revert x. induction s as [|c r IH]; intros x; simpl.
  - intros ->%list_elem_of_singleton. done.
  - pose proof (split_not_nil r) as Hne.
    destruct (Ascii.eqb c sep) eqn:Ec.
    + intros [->|H]%elem_of_cons; [done|]. by apply IH.
    + destruct (split sep r) as [|y ys]; [done|].
      intros [->|H]%elem_of_cons.
      * simpl. rewrite Ec. simpl. apply IH. by left.
      * apply IH. by right.
Qed.

End StringFacts.

Lemma lstrip_empty (s : string) : lstrip s = "" ↔ all_space s = true.
Proof.
  induction s as [|c r IH]; simpl; [done|].
  destruct (is_space c); simpl; [done|]. split; done.
Qed.

Lemma rstrip_empty (s : string) : rstrip s = "" ↔ all_space s = true.
Proof.
  induction s as [|c r IH]; simpl; [done|].
  destruct (rstrip r) as [|d r'].
  - destruct (is_space c); simpl; [|split; done].
    split; intros _; [by apply IH|done].
  - split; [done|]. intros [_ H]%andb_true_iff. apply IH in H. done.
Qed.

Lemma all_space_lstrip (s : string) :
  all_space (lstrip s) = true ↔ all_space s = true.
Proof.
  induction s as [|c r IH]; simpl; [done|].
  destruct (is_space c) eqn:E; simpl; [done|]. by rewrite E.
Qed.

(** A line strips to the empty string exactly when it is all whitespace. *)
Lemma strip_empty (s : string) : strip s = "" ↔ all_space s = true.
Proof. unfold strip. by rewrite rstrip_empty, all_space_lstrip. Qed.

(** ** The line transform (handler.py, processing step) *)

(** C6: the transform splits the content on the newline character (the
    pieces rejoin with newlines to the content, and none contains a
    newline) and keeps, in order and unchanged, exactly the pieces whose
    stripped form is non-empty, that is the pieces that are not made of
    whitespace only; the content ["a\n\n b \n"] yields [["a"; " b "]]. *)
Theorem C6_raw_data_lines (blob_data : string) :
  join LF (split LF blob_data) = blob_data
  ∧ (∀ piece, piece ∈ split LF blob_data → contains_char LF piece = false)
  ∧ raw_data blob_data = filter (λ line, all_space line = false) (split LF blob_data)
  ∧ raw_data blob_data `sublist_of` split LF blob_data
  ∧ (∀ line, line ∈ raw_data blob_data ↔ strip line ≠ "" ∧ line ∈ split LF blob_data)
  ∧ raw_data sample_content = ["a"; " b "].
Proof.
  split; [apply join_split|].
  split; [intros piece; apply split_no_sep|].
  split.
  { unfold raw_data. apply list_filter_iff. intros line.
    rewrite strip_empty. by destruct (all_space line). }
  split; [apply sublist_filter|].
  split; [intros line; unfold raw_data; by rewrite list_elem_of_filter|].
  reflexivity.
Qed.

(** ** The adapter (modules/gcs.py) *)

Ltac run :=
  unfold mbind, M_bind, mret, M_ret, log, raise, try_except,
         lookup_object, store_object, remove_object, decoded; cbn.

Lemma get_validated_names_result self b n ctx w :
  (_get_validated_names self b n ctx w).1 = Ok (validated_names self b n)
  ∧ no_contact w (_get_validated_names self b n ctx w).2.
Proof.
  unfold _get_validated_names, validated_names. run.
  destruct (py_or b _), (py_or n _); cbn; done.
Qed.

(** The same-location check of [move_blob]. *)
Lemma move_blob_same_location self sb sn tb tn w source :
  validated_names self sb sn = Some source →
  target_names self tb tn source = source →
  (move_blob self sb sn tb tn w).1 = Ok false
  ∧ no_contact w (move_blob self sb sn tb tn w).2
  ∧ new_logs w (move_blob self sb sn tb tn w).2
    = [(DEBUG, G_validating "move_blob source" (Some source.1) (Some source.2));
       (WARNING, G_same_location)].
Proof.
  destruct source as [s_b s_n]. unfold validated_names, target_names.
  intros Hsrc Htgt. unfold move_blob, _get_validated_names. run.
  destruct (py_or sb _) as [b|]; [|done].
  destruct (py_or sn _) as [n|]; [|done].
  injection Hsrc as -> ->. cbn in Htgt. injection Htgt as Hb Hn.
  cbn. rewrite Hb, Hn, !String.eqb_refl. cbn.
  split; [done|]. split; [done|].
  unfold new_logs. cbn. rewrite <- app_assoc. by rewrite drop_app_length.
Qed.

(** C4: when the resolved source and the resolved target name the same
    bucket and the same object, [move_blob] returns [False] at once: a
    warning is logged and no call reaches the storage library, so nothing
    is copied or deleted. *)
Theorem C4_self_move_guard self sb sn tb tn w source :
  validated_names self sb sn = Some source →
  target_names self tb tn source = source →
  (move_blob self sb sn tb tn w).1 = Ok false
  ∧ no_contact w (move_blob self sb sn tb tn w).2
  ∧ new_logs w (move_blob self sb sn tb tn w).2
    = [(DEBUG, G_validating "move_blob source" (Some source.1) (Some source.2));
       (WARNING, G_same_location)].
Proof. apply move_blob_same_location. Qed.

Lemma C4_self_move_guard_witness :
  validated_names demo_client None None = Some (SOURCE_BUCKET, "raw_data/a.txt")
  ∧ target_names demo_client None None (SOURCE_BUCKET, "raw_data/a.txt")
    = (SOURCE_BUCKET, "raw_data/a.txt")
  ∧ (move_blob demo_client None None None None demo_world).1 = Ok false
  ∧ no_contact demo_world (move_blob demo_client None None None None demo_world).2.
Proof.
  split; [reflexivity|]. split; [reflexivity|].
  pose proof (C4_self_move_guard demo_client None None None None demo_world
                (SOURCE_BUCKET, "raw_data/a.txt") eq_refl eq_refl) as (H1 & H2 & _).
  exact (conj H1 H2).
Defined.

(** ** The handler's filters (modules/handler.py, steps 1 and 2) *)

Lemma unpack_parts (blob_name : string) (w : World) :
  unpack2 (if contains_char SLASH blob_name
           then rsplit1 SLASH blob_name else [""; blob_name]) w
  = (Ok (folder_path blob_name, blob_path blob_name), w).
Proof.
  unfold folder_path, blob_path, rsplit1.
  destruct (contains_char SLASH blob_name) eqn:E.
  - destruct (rsplit_last SLASH blob_name) as [[p q]|] eqn:R; [done|].
    apply rsplit_last_None in R. congruence.
  - apply rsplit_last_None in E. by rewrite E.
Qed.

(** The two parts of a name that is a [str]. *)
Lemma name_parts_str (blob_name : string) (w : World) :
  name_parts (PyStr blob_name) w
  = (Ok (folder_path blob_name, PyStr (blob_path blob_name)), w).
Proof.
  pose proof (unpack_parts blob_name w) as H.
  unfold name_parts, contains_slash, rsplit_slash. run.
  destruct (contains_char SLASH blob_name) eqn:E.
  - by rewrite H.
  - unfold folder_path, blob_path.
    apply rsplit_last_None in E. by rewrite E.
Qed.

(** The parts of a name that is not a [str]: a list or a dict without the
    slash goes through with an empty folder path, one with the slash has
    no [rsplit], and the other values cannot be searched. *)
Lemma name_parts_other (v : PyVal) (w : World) :
  (∀ s, v ≠ PyStr s) →
  name_parts v w
  = match v with
    | PyList l =>
        if existsb is_slash l then (Raise AttributeError, w) else (Ok ("", v), w)
    | PyDict d =>
        if existsb (λ kv, String.eqb kv.1 "/") d
        then (Raise AttributeError, w) else (Ok ("", v), w)
    | _ => (Raise TypeError, w)
    end.
Proof.
  intros Hv. unfold name_parts, contains_slash, rsplit_slash. run.
  destruct v as [| | | |s|l|d]; try done.
  - by destruct (Hv s).
  - by destruct (existsb _ l).
  - by destruct (existsb _ d).
Qed.

(** A folder path that is not empty was cut off a [str]. *)
Lemma name_parts_folder (v : PyVal) (w w' : World) (fp : string) (bp : PyVal) :
  name_parts v w = (Ok (fp, bp), w') → fp ≠ "" →
  ∃ n, v = PyStr n ∧ fp = folder_path n ∧ bp = PyStr (blob_path n).
Proof.
  intros H Hfp. destruct v as [| | | |s|l|d].
  5:{ rewrite name_parts_str in H. injection H as <- <- _. by exists s. }
  all: rewrite name_parts_other in H by done; try done.
  - destruct (existsb _ l); [done|]. by injection H as <- _ _.
  - destruct (existsb _ d); [done|]. by injection H as <- _ _.
Qed.

(** The object name is its folder path, a slash and its final segment. *)
Lemma blob_name_parts (blob_name : string) :
  folder_path blob_name ≠ "" →
  blob_name = folder_path blob_name ++ "/" ++ blob_path blob_name
  ∧ contains_char SLASH (blob_path blob_name) = false.
Proof.
  unfold folder_path, blob_path.
  destruct (rsplit_last SLASH blob_name) as [[p q]|] eqn:R; [|done].
  intros _. by apply rsplit_last_Some in R.
Qed.

Lemma rsplit_last_split (sep : ascii) (s : string) :
  match rsplit_last sep s with
  | Some (_, q) => ∃ l x, split sep s = (l ++ [x; q])%list
  | None => split sep s = [s]
  end.
Proof.
  induction s as [|c r IH]; simpl; [done|].
  destruct (rsplit_last sep r) as [[p q]|].
  - destruct IH as (l & x & ->).
    destruct (Ascii.eqb c sep).
    + by exists ("" :: l), x.
    + destruct l as [|y l]; simpl.
      * by exists [], (String c x).
      * by exists (String c y :: l), x.
  - rewrite IH. destruct (Ascii.eqb c sep); [|done]. by exists [], "".
Qed.

(** [blob_path] is the final slash-separated segment of the object name. *)
Lemma blob_path_last (blob_name : string) :
  last (split SLASH blob_name) = Some (blob_path blob_name).
Proof.
  unfold blob_path. pose proof (rsplit_last_split SLASH blob_name) as H.
  destruct (rsplit_last SLASH blob_name) as [[p q]|].
  - destruct H as (l & x & ->).
    change (l ++ [x; q])%list with (l ++ [x] ++ [q])%list.
    by rewrite app_assoc, last_snoc.
  - by rewrite H.
Qed.

Lemma name_of_Some (data : Payload) (n : string) :
  name_of data = Some n ↔ dict_get data "name" (PyStr "") = PyStr n.
Proof.
  unfold name_of. destruct (dict_get data "name" _); split; congruence.
Qed.

(** The handler up to its two filters. *)
Lemma handler_unfold (data : Payload) (w : World) (n : string) :
  name_of data = Some n →
  handle_gcs_event_data data w
  = let bucket_name := dict_get data "bucket" (PyStr "") in
    let w1 := add_log INFO (H_received bucket_name n) w in
    match equal_str bucket_name SOURCE_BUCKET with
    | None => (Ok (), add_log INFO (H_ignore_bucket bucket_name) w1)
    | Some b =>
        let w2 := add_log DEBUG (H_folder_check (folder_path n)) w1 in
        if String.eqb (folder_path n) SOURCE_FOLDER
        then processing b n (add_log INFO (H_validated b n) w2)
        else (Ok (), add_log INFO (H_ignore_blob n) w2)
    end.
Proof.
  intros Hn%name_of_Some. unfold handle_gcs_event_data. rewrite Hn.
  cbv zeta. unfold mbind at 1, M_bind at 1. rewrite name_parts_str. cbn [fst snd].
  unfold mbind at 1, M_bind at 1, log at 1.
  destruct (equal_str _ _) as [b|]; [|reflexivity].
  unfold mbind at 1, M_bind at 1, log at 1.
  destruct (String.eqb _ SOURCE_FOLDER); reflexivity.
Qed.

(** A notification that fails a filter ends the handler with two or three
    log records and nothing else. *)
Lemma handler_filtered (data : Payload) (w : World) (n : string) :
  name_of data = Some n →
  equal_str (dict_get data "bucket" (PyStr "")) SOURCE_BUCKET = None
  ∨ folder_path n ≠ SOURCE_FOLDER →
  (handle_gcs_event_data data w).1 = Ok ()
  ∧ no_contact w (handle_gcs_event_data data w).2.
Proof.
  intros Hn Hf. rewrite (handler_unfold data w n Hn). cbv zeta.
  destruct (equal_str _ _) as [b|]; [|done].
  destruct Hf as [|Hf]; [done|].
  apply String.eqb_neq in Hf. rewrite Hf. done.
Qed.

(** A notification that passes both filters goes on to [processing]. *)
Lemma handler_validated (data : Payload) (w : World) (b n : string) :
  name_of data = Some n →
  equal_str (dict_get data "bucket" (PyStr "")) SOURCE_BUCKET = Some b →
  folder_path n = SOURCE_FOLDER →
  handle_gcs_event_data data w
  = processing b n
      (add_log INFO (H_validated b n)
         (add_log DEBUG (H_folder_check (folder_path n))
            (add_log INFO (H_received (dict_get data "bucket" (PyStr "")) n) w))).
Proof.
  intros Hn Hb Hf. rewrite (handler_unfold data w n Hn). cbv zeta.
  rewrite Hb. apply String.eqb_eq in Hf. by rewrite Hf.
Qed.

Lemma equal_str_Some (v : PyVal) (s b : string) :
  equal_str v s = Some b ↔ v = PyStr s ∧ b = s.
Proof.
  unfold equal_str. destruct v as [| | | |t| |]; try (split; [done|by intros [? ?]]).
  destruct (String.eqb_spec t s) as [->|Hne]; split.
  - by intros [= <-].
  - by intros [_ ->].
  - done.
  - intros [[= ?] _]. done.
Qed.

Lemma equal_str_None (v : PyVal) (s : string) :
  equal_str v s = None ↔ v ≠ PyStr s.
Proof.
  destruct (equal_str v s) as [b|] eqn:E.
  - apply equal_str_Some in E as [-> _]. split; done.
  - split; [|done]. intros _ ->. unfold equal_str in E.
    by rewrite String.eqb_refl in E.
Qed.


(** ** Relocation (modules/gcs.py, [move_blob]) *)

Lemma guard_false (s_b s_n t_b t_n : string) :
  String.eqb s_n t_n && String.eqb s_b t_b = false ↔ (t_b, t_n) ≠ (s_b, s_n).
Proof.
  rewrite andb_false_iff, !String.eqb_neq. split.
  - intros [H|H] [= -> ->]; done.
  - intros H. destruct (decide (s_n = t_n)) as [->|]; [|by left].
    right. intros ->. done.
Qed.

Ltac next_fault :=
  match goal with
  | |- context [faults ?w ?h ?c] =>
      let F := fresh "F" in destruct (faults w h c) eqn:F; cbn
  end.

Ltac mem := repeat first [apply list_elem_of_here | apply list_elem_of_further].

Ltac lists := unfold new_logs, new_calls; cbn; rewrite <- ?app_assoc; cbn;
  rewrite ?drop_app_length; cbn.

Lemma move_blob_attempt self sb sn tb tn w s_b s_n t_b t_n :
  validated_names self sb sn = Some (s_b, s_n) →
  target_names self tb tn (s_b, s_n) = (t_b, t_n) →
  (t_b, t_n) ≠ (s_b, s_n) →
  let r := move_blob self sb sn tb tn w in
  faults r.2 = faults w
  ∧ List.filter is_moving (new_logs w r.2) = [(INFO, G_moving s_b s_n t_b t_n)]
  ∧ ((r.1 = Ok true
      ∧ calls r.2 = (calls w ++ move_calls s_b s_n t_b t_n)%list
      ∧ accepted (faults w) (calls w) (move_calls s_b s_n t_b t_n)
      ∧ ∃ text, objects w !! (s_b, s_n) = Some text
                ∧ objects r.2 = delete (s_b, s_n) (<[(t_b, t_n) := text]> (objects w)))
     ∨ (r.1 = Ok false
        ∧ ∃ e, (ERROR, G_move_failed e) ∈ new_logs w r.2
          ∧ ((∃ p, p ≠ [] ∧ p `prefix_of` take 4 (move_calls s_b s_n t_b t_n)
                   ∧ calls r.2 = (calls w ++ p)%list ∧ objects r.2 = objects w)
             ∨ (calls r.2 = (calls w ++ move_calls s_b s_n t_b t_n)%list
                ∧ accepted (faults w) (calls w) (take 4 (move_calls s_b s_n t_b t_n))
                ∧ faults w (calls w ++ take 4 (move_calls s_b s_n t_b t_n))%list
                    (CDelete s_b s_n) = Some e
                ∧ ∃ text, objects w !! (s_b, s_n) = Some text
                          ∧ objects r.2 = <[(t_b, t_n) := text]> (objects w))))).
Proof.
  unfold validated_names, target_names. intros Hsrc Htgt Hne.
  unfold move_blob, _get_validated_names, copy_blob, delete_blob, issue. run.
  destruct (py_or sb _) as [b|]; [|done].
  destruct (py_or sn _) as [n|]; [|done].
  injection Hsrc as -> ->. cbn in Htgt. injection Htgt as Hb Hn.
  cbn. rewrite Hb, Hn. pose proof Hne as Hg. apply guard_false in Hg. rewrite Hg. cbn.
  next_fault.
  { split; [done|]. split; [by lists|]. right. split; [done|].
    exists e. split; [lists; mem|]. left.
    exists [CBucket s_b]. split; [done|]. split; [by eexists|]. done. }
  next_fault.
  { split; [done|]. split; [by lists|]. right. split; [done|].
    exists e. split; [lists; mem|]. left.
    exists [CBucket s_b; CBucket t_b]. split; [done|]. split; [by eexists|].
    by lists. }
  next_fault.
  { split; [done|]. split; [by lists|]. right. split; [done|].
    exists e. split; [lists; mem|]. left.
    exists [CBucket s_b; CBucket t_b; CBlob s_b s_n]. split; [done|].
    split; [by eexists|]. by lists. }
  next_fault.
  { split; [done|]. split; [by lists|]. right. split; [done|].
    exists e. split; [lists; mem|]. left.
    exists (take 4 (move_calls s_b s_n t_b t_n)). split; [done|].
    split; [done|]. by lists. }
  destruct (objects w !! (s_b, s_n)) as [text|] eqn:Hobj; cbn.
  2:{ split; [done|]. split; [by lists|]. right. split; [done|].
    exists NotFound. split; [lists; mem|]. left.
    exists (take 4 (move_calls s_b s_n t_b t_n)). split; [done|].
    split; [done|]. by lists. }
  next_fault.
  { split; [done|]. split; [by lists|]. right. split; [done|].
    exists e. split; [lists; mem|]. right.
    split; [by lists|]. split; [done|]. split; [|by eexists].
    rewrite <- F3. f_equal. by lists. }
  rewrite lookup_insert_ne by done. rewrite Hobj. cbn.
  split; [done|]. split; [by lists|]. left. split; [done|].
  split; [by lists|]. split; [done|]. by eexists.
Qed.

Lemma move_blob_not_attempted self sb sn tb tn w :
  validated_names self sb sn = None
  ∨ (∃ source, validated_names self sb sn = Some source
               ∧ target_names self tb tn source = source) →
  (move_blob self sb sn tb tn w).1 = Ok false
  ∧ no_contact w (move_blob self sb sn tb tn w).2.
Proof.
  intros [Hnone|(source & Hsrc & Htgt)].
  - unfold validated_names in Hnone.
    unfold move_blob, _get_validated_names. run.
    destruct (py_or sb _), (py_or sn _); done.
  - destruct (move_blob_same_location self sb sn tb tn w source Hsrc Htgt) as (? & ? & _).
    done.
Qed.

Lemma move_blob_copied_not_deleted self sb sn tb tn w s_b s_n t_b t_n text e :
  validated_names self sb sn = Some (s_b, s_n) →
  target_names self tb tn (s_b, s_n) = (t_b, t_n) →
  (t_b, t_n) ≠ (s_b, s_n) →
  accepted (faults w) (calls w) (take 4 (move_calls s_b s_n t_b t_n)) →
  objects w !! (s_b, s_n) = Some text →
  faults w (calls w ++ take 4 (move_calls s_b s_n t_b t_n))%list (CDelete s_b s_n)
    = Some e →
  (move_blob self sb sn tb tn w).1 = Ok false
  ∧ calls (move_blob self sb sn tb tn w).2
    = (calls w ++ move_calls s_b s_n t_b t_n)%list
  ∧ objects (move_blob self sb sn tb tn w).2 = <[(t_b, t_n) := text]> (objects w)
  ∧ (ERROR, G_move_failed e) ∈ new_logs w (move_blob self sb sn tb tn w).2.
Proof.
  unfold validated_names, target_names.
  intros Hsrc Htgt Hne (F1 & F2 & F3 & F4 & _) Hobj F5.
  replace (calls w ++ take 4 (move_calls s_b s_n t_b t_n))%list
    with ((((calls w ++ [CBucket s_b]) ++ [CBucket t_b]) ++ [CBlob s_b s_n])
          ++ [CCopy s_b s_n t_b t_n])%list in F5 by by lists.
  unfold move_blob, _get_validated_names, copy_blob, delete_blob, issue. run.
  destruct (py_or sb _) as [b|]; [|done].
  destruct (py_or sn _) as [n|]; [|done].
  injection Hsrc as -> ->. cbn in Htgt. injection Htgt as Hb Hn.
  cbn. rewrite Hb, Hn. apply guard_false in Hne. rewrite Hne. cbn.
  rewrite F1. cbn. rewrite F2. cbn. rewrite F3. cbn. rewrite F4. cbn.
  rewrite Hobj. cbn. rewrite F5. cbn.
  split; [done|]. split; [by lists|]. split; [done|]. lists. mem.
Qed.

(** C3 (amended): [move_blob] returns [True] only when the copy and the
    deletion that follows both went through; when the copy goes through
    and the deletion is refused it returns [False], leaving the object at
    both places and an error record in the log; [False] is also what it
    returns when nothing was attempted (names missing, or source and
    target the same), so the returned value alone does not tell the two
    apart; it never raises. *)
Theorem C3_move_blob_result self sb sn tb tn w :
  let r := move_blob self sb sn tb tn w in
  (r.1 = Ok true →
     ∃ s_b s_n t_b t_n text,
       validated_names self sb sn = Some (s_b, s_n)
       ∧ target_names self tb tn (s_b, s_n) = (t_b, t_n)
       ∧ accepted (faults w) (calls w) (move_calls s_b s_n t_b t_n)
       ∧ calls r.2 = (calls w ++ move_calls s_b s_n t_b t_n)%list
       ∧ objects w !! (s_b, s_n) = Some text
       ∧ objects r.2 = delete (s_b, s_n) (<[(t_b, t_n) := text]> (objects w)))
  ∧ (∀ s_b s_n t_b t_n text e,
       validated_names self sb sn = Some (s_b, s_n) →
       target_names self tb tn (s_b, s_n) = (t_b, t_n) →
       (t_b, t_n) ≠ (s_b, s_n) →
       accepted (faults w) (calls w) (take 4 (move_calls s_b s_n t_b t_n)) →
       objects w !! (s_b, s_n) = Some text →
       faults w (calls w ++ take 4 (move_calls s_b s_n t_b t_n))%list
         (CDelete s_b s_n) = Some e →
       r.1 = Ok false
       ∧ calls r.2 = (calls w ++ move_calls s_b s_n t_b t_n)%list
       ∧ objects r.2 = <[(t_b, t_n) := text]> (objects w)
       ∧ (ERROR, G_move_failed e) ∈ new_logs w r.2)
  ∧ (validated_names self sb sn = None
     ∨ (∃ source, validated_names self sb sn = Some source
                  ∧ target_names self tb tn source = source) →
     r.1 = Ok false ∧ no_contact w r.2)
  ∧ (∃ b, r.1 = Ok b).
Proof.
  cbv zeta. split; [|split; [|split]].
  - intros Htrue.
    destruct (validated_names self sb sn) as [[s_b s_n]|] eqn:Hsrc.
    2:{ destruct (move_blob_not_attempted self sb sn tb tn w) as [H _]; [by left|].
        congruence. }
    destruct (target_names self tb tn (s_b, s_n)) as [t_b t_n] eqn:Htgt.
    destruct (decide ((t_b, t_n) = (s_b, s_n))) as [Heq|Hne].
    { destruct (move_blob_not_attempted self sb sn tb tn w) as [H _].
      - right. exists (s_b, s_n). split; [done|]. congruence.
      - congruence. }
    destruct (move_blob_attempt self sb sn tb tn w s_b s_n t_b t_n Hsrc Htgt Hne)
      as (_ & _ & [(_ & Hc & Ha & text & Ho & Ho')|(Hf & _)]); [|congruence].
    exists s_b, s_n, t_b, t_n, text. done.
  - intros. by eapply move_blob_copied_not_deleted.
  - apply move_blob_not_attempted.
  - destruct (validated_names self sb sn) as [[s_b s_n]|] eqn:Hsrc.
    2:{ destruct (move_blob_not_attempted self sb sn tb tn w) as [H _]; [by left|].
        by exists false. }
    destruct (target_names self tb tn (s_b, s_n)) as [t_b t_n] eqn:Htgt.
    destruct (decide ((t_b, t_n) = (s_b, s_n))) as [Heq|Hne].
    { destruct (move_blob_not_attempted self sb sn tb tn w) as [H _].
      - right. exists (s_b, s_n). split; [done|]. congruence.
      - by exists false. }
    destruct (move_blob_attempt self sb sn tb tn w s_b s_n t_b t_n Hsrc Htgt Hne)
      as (_ & _ & [(H & _)|(H & _)]); eauto.
Qed.

Lemma C3_move_blob_result_witness :
  let r := move_blob demo_client None None None (Some demo_target)
             delete_refused_world in
  r.1 = Ok false
  ∧ objects r.2 = <[(SOURCE_BUCKET, demo_target) := sample_content]> demo_objects
  ∧ (ERROR, G_move_failed delete_refused) ∈ new_logs delete_refused_world r.2.
Proof.
  cbv zeta.
  pose proof (C3_move_blob_result demo_client None None None (Some demo_target)
                delete_refused_world) as (_ & H & _).
  destruct (H SOURCE_BUCKET "raw_data/a.txt" SOURCE_BUCKET demo_target
              sample_content delete_refused) as (H1 & _ & H3 & H4).
  - reflexivity.
  - reflexivity.
  - vm_compute. discriminate.
  - vm_compute. tauto.
  - reflexivity.
  - reflexivity.
  - split; [exact H1|]. split; [exact H3|exact H4].
Defined.

(** C3 as stated fails: with the deletion refused after the copy, and with
    source and target the same, [move_blob] hands back the same [False],
    although the first run copied the object and the second did nothing. *)
Lemma C3_false_does_not_tell_apart :
  let partial := move_blob demo_client None None None (Some demo_target)
                   delete_refused_world in
  let idle := move_blob demo_client None None None None delete_refused_world in
  new_calls delete_refused_world partial.2
  = move_calls SOURCE_BUCKET "raw_data/a.txt" SOURCE_BUCKET demo_target
  ∧ objects partial.2 !! (SOURCE_BUCKET, demo_target) = Some sample_content
  ∧ objects partial.2 !! (SOURCE_BUCKET, "raw_data/a.txt") = Some sample_content
  ∧ new_calls delete_refused_world idle.2 = []
  ∧ objects idle.2 !! (SOURCE_BUCKET, demo_target) = None
  ∧ objects idle.2 !! (SOURCE_BUCKET, "raw_data/a.txt") = Some sample_content
  ∧ partial.1 = Ok false
  ∧ idle.1 = Ok false.
Proof. vm_compute. repeat split. Qed.

(** ** Defaulting of names (modules/gcs.py) *)

Lemma get_blob_missing self b n w :
  validated_names self b n = None →
  (get_blob self b n w).1 = Ok None ∧ no_contact w (get_blob self b n w).2.
Proof.
  unfold validated_names, get_blob, _get_validated_names. run.
  destruct (py_or b _), (py_or n _); done.
Qed.

Lemma get_blob_content_missing self b n enc w :
  validated_names self b n = None →
  (get_blob_content self b n enc w).1 = Ok None
  ∧ no_contact w (get_blob_content self b n enc w).2.
Proof.
  unfold validated_names, get_blob_content, get_blob, _get_validated_names. run.
  destruct (py_or b _), (py_or n _); done.
Qed.

(** ** The handler past its filters (modules/handler.py, steps 3 to 6) *)

Ltac unfold_adapter :=
  unfold processing, content_fetch, GCSClient_init, get_blob_content, get_blob,
    _get_validated_names, _get_blob_or_none, open_read, issue.

Ltac next_fault_all :=
  match goal with
  | |- context [faults ?w ?h ?c] =>
      let F := fresh "F" in destruct (faults w h c) eqn:F; cbn in *
  end.

Ltac next_fault_of f :=
  match goal with
  | |- context [f ?h ?c] =>
      let F := fresh "F" in destruct (f h c) eqn:F; cbn in *
  end.

(** The content fetch returns text exactly when the service lets its four
    calls through and holds the object; the text is what the reader makes
    of the stored content. *)
Lemma content_fetch_Some (b n text : string) (w : World) :
  (content_fetch b n w).1 = Ok (Some text)
  ↔ accepted (faults w) (calls w) (fetch_calls b n)
    ∧ ∃ stored, objects w !! (b, n) = Some stored
                ∧ text = text_of w "utf-8" stored.
Proof.
  destruct w as [o f c l d]. unfold_adapter. run. split.
  - intros H. do 4 (next_fault_of f; [done|]).
    destruct (o !! (b, n)) as [t|] eqn:Hobj; cbn in *; [|done].
    injection H as <-. split; [done|]. by exists t.
  - intros ((F1 & F2 & F3 & F4 & _) & stored & Hobj & ->).
    rewrite F1. cbn. rewrite F2. cbn. rewrite F3. cbn. rewrite F4. cbn.
    rewrite Hobj. done.
Qed.

Lemma target_differs (n : string) :
  folder_path n = SOURCE_FOLDER →
  String.eqb n (TARGET_FOLDER ++ "/" ++ blob_path n) = false.
Proof.
  intros Hf. apply String.eqb_neq. intros H.
  destruct (blob_name_parts n) as [Hn _]; [by rewrite Hf|].
  rewrite Hf in Hn. rewrite Hn in H at 1. discriminate H.
Qed.

Lemma py_or_str_default (b : string) : py_or_str (py_or (Some b) (Some b)) b = b.
Proof.
  unfold py_or, py_or_str, truthy.
  destruct (String.eqb b "") eqn:E; cbn; by rewrite ?E.
Qed.

Lemma target_nonempty (q : string) :
  String.eqb (TARGET_FOLDER ++ "/" ++ q) "" = false.
Proof. reflexivity. Qed.

Ltac notmem :=
  let Hin := fresh "Hin" in
  intros Hin;
  repeat (apply elem_of_cons in Hin as [Hin|Hin]; [discriminate Hin|]);
  by apply elem_of_nil in Hin.

Lemma run_eq {A : Type} (r : Result A) o f d (c c' cs : list Call)
    (l l' ls : list (Level * LogMsg)) :
  c' = (c ++ cs)%list → l' = (l ++ ls)%list →
  (r, mkWorld o f c' l' d) = (r, mkWorld o f (c ++ cs) (l ++ ls) d).
Proof. by intros -> ->. Qed.

(** Closes a run by naming the calls and the log records it has added. *)
Ltac close_run :=
  eapply run_eq;
  (cbn -[app]; rewrite <- ?app_assoc;
   first [reflexivity | symmetry; apply app_nil_r]).

Ltac fetch_failed_leaf :=
  do 3 eexists; split; [close_run|];
  split; [reflexivity|]; split; [notmem|];
  right; left;
  split; [done|];
  split; [first [ by right | left; intros (?&?&?&?&_); congruence ]|];
  split; [done|];
  by eexists.

(** The run of a content fetch as one equation: the objects and the fault
    plan stay, calls and log records are added, and the fetch ends in one
    of three ways. *)
Lemma content_fetch_run (b n : string) (w : World) :
  ∃ res cs ls,
    content_fetch b n w
    = (res, mkWorld (objects w) (faults w) (calls w ++ cs) (logs w ++ ls) (text_of w))
    ∧ List.filter is_moving ls = []
    ∧ ((INFO, G_move_ok) ∉ ls)
    ∧ ((∃ e, faults w (calls w) CClient = Some e ∧ res = Raise e
             ∧ cs = [CClient] ∧ ls = [])
       ∨ (faults w (calls w) CClient = None
          ∧ (¬ accepted (faults w) (calls w) (fetch_calls b n)
             ∨ objects w !! (b, n) = None)
          ∧ res = Ok None
          ∧ cs `prefix_of` fetch_calls b n)
       ∨ (∃ stored,
            accepted (faults w) (calls w) (fetch_calls b n)
            ∧ objects w !! (b, n) = Some stored
            ∧ res = Ok (Some (text_of w "utf-8" stored))
            ∧ cs = fetch_calls b n)).
Proof.
  destruct w as [o f c l d]. unfold_adapter. run.
  next_fault_of f.
  { do 3 eexists. split; [close_run|]. split; [done|]. split; [notmem|].
    left. by eexists. }
  next_fault_of f; [fetch_failed_leaf|].
  next_fault_of f; [fetch_failed_leaf|].
  next_fault_of f; [fetch_failed_leaf|].
  destruct (o !! (b, n)) as [stored|] eqn:Hobj; cbn in *; [|fetch_failed_leaf].
  do 3 eexists. split; [close_run|]. split; [reflexivity|]. split; [notmem|].
  right. right. exists stored. done.
Qed.

Ltac move_failed_leaf :=
  exists false; do 3 eexists; split; [close_run|];
  split; [done|]; split; [by eexists|]; split; [reflexivity|];
  right; split; [done|]; notmem.

(** The run of [move_blob] once it sets out to copy, as one equation. *)
Lemma move_blob_run self sb sn tb tn w s_b s_n t_b t_n :
  validated_names self sb sn = Some (s_b, s_n) →
  target_names self tb tn (s_b, s_n) = (t_b, t_n) →
  (t_b, t_n) ≠ (s_b, s_n) →
  ∃ ok o' p ls,
    move_blob self sb sn tb tn w
    = (Ok ok, mkWorld o' (faults w) (calls w ++ p) (logs w ++ ls) (text_of w))
    ∧ p ≠ []
    ∧ p `prefix_of` move_calls s_b s_n t_b t_n
    ∧ List.filter is_moving ls = [(INFO, G_moving s_b s_n t_b t_n)]
    ∧ ((ok = true
        ∧ (INFO, G_move_ok) ∈ ls
        ∧ p = move_calls s_b s_n t_b t_n
        ∧ ∃ text, objects w !! (s_b, s_n) = Some text
                  ∧ o' = delete (s_b, s_n) (<[(t_b, t_n) := text]> (objects w)))
       ∨ (ok = false ∧ ((INFO, G_move_ok) ∉ ls))).
Proof.
  unfold validated_names, target_names. intros Hsrc Htgt Hne.
  destruct w as [o f c l d].
  unfold move_blob, _get_validated_names, copy_blob, delete_blob, issue. run.
  destruct (py_or sb _) as [b|]; [|done].
  destruct (py_or sn _) as [n|]; [|done].
  injection Hsrc as -> ->. cbn in Htgt. injection Htgt as Hb Hn.
  cbn. rewrite Hb, Hn. pose proof Hne as Hg. apply guard_false in Hg. rewrite Hg. cbn.
  next_fault_of f; [move_failed_leaf|].
  next_fault_of f; [move_failed_leaf|].
  next_fault_of f; [move_failed_leaf|].
  next_fault_of f; [move_failed_leaf|].
  destruct (o !! (s_b, s_n)) as [text|] eqn:Hobj; cbn in *; [|move_failed_leaf].
  next_fault_of f; [move_failed_leaf|].
  rewrite lookup_insert_ne by done. rewrite Hobj. cbn.
  exists true. do 3 eexists. split; [close_run|].
  split; [done|]. split; [done|]. split; [reflexivity|].
  left. split; [done|]. split; [mem|]. split; [done|]. by exists text.
Qed.

(** [processing] is the content fetch followed, when it returned text, by
    the two sample records and one call of [move_blob]. *)
Lemma processing_unfold (b n : string) (w0 : World) :
  processing b n w0
  = match content_fetch b n w0 with
    | (Ok (Some blob_data), w1) =>
        let target := TARGET_FOLDER ++ "/" ++ blob_path n in
        let w2 := add_log INFO (H_sample (take 5 (raw_data blob_data)))
                    (add_log INFO (H_read_ok (String.length blob_data)) w1) in
        match move_blob (mkGCSClient (Some b) (Some n)) None None
                (Some b) (Some target) w2 with
        | (Ok true, w3) => (Ok (), add_log INFO H_finished w3)
        | (Ok false, w3) =>
            (Ok (), add_log INFO H_finished (add_log ERROR (H_move_failed target) w3))
        | (Raise e, w3) => (Raise e, w3)
        end
    | (Ok None, w1) => (Ok (), add_log INFO H_finished (add_log ERROR H_fetch_failed w1))
    | (Raise e, w1) => (Raise e, w1)
    end.
Proof.
  unfold processing, content_fetch, GCSClient_init, issue.
  unfold mbind, M_bind, mret, M_ret, log. cbn -[get_blob_content move_blob].
  destruct (faults w0 (calls w0) CClient); cbn -[get_blob_content move_blob]; [done|].
  destruct (get_blob_content _ _ _ _ _) as [[[text|]|e] w1];
    cbn -[get_blob_content move_blob]; [|done|done].
  destruct (move_blob _ _ _ _ _ _) as [[[|]|e] w3]; done.
Qed.

(** What [processing] does to the world for a name of the watched folder:
    the client is refused, the fetch fails, or the content is fetched and a
    relocation to the target folder is attempted. *)
Lemma processing_outcome (b n : string) (w0 : World) :
  folder_path n = SOURCE_FOLDER →
  let r := processing b n w0 in
  let target := TARGET_FOLDER ++ "/" ++ blob_path n in
  ∃ ls cs,
    logs r.2 = (logs w0 ++ ls)%list
    ∧ calls r.2 = (calls w0 ++ cs)%list
    ∧ faults r.2 = faults w0
    ∧ ((∃ e, faults w0 (calls w0) CClient = Some e ∧ r.1 = Raise e
             ∧ cs = [CClient] ∧ ls = [] ∧ objects r.2 = objects w0)
       ∨ (faults w0 (calls w0) CClient = None
          ∧ (¬ accepted (faults w0) (calls w0) (fetch_calls b n)
             ∨ objects w0 !! (b, n) = None)
          ∧ r.1 = Ok ()
          ∧ cs `prefix_of` fetch_calls b n
          ∧ (ERROR, H_fetch_failed) ∈ ls
          ∧ ((INFO, G_move_ok) ∉ ls)
          ∧ List.filter is_moving ls = []
          ∧ objects r.2 = objects w0)
       ∨ (∃ text p,
            accepted (faults w0) (calls w0) (fetch_calls b n)
            ∧ objects w0 !! (b, n) = Some text
            ∧ r.1 = Ok ()
            ∧ cs = (fetch_calls b n ++ p)%list
            ∧ p ≠ []
            ∧ p `prefix_of` move_calls b n b target
            ∧ List.filter is_moving ls = [(INFO, G_moving b n b target)]
            ∧ (((INFO, G_move_ok) ∈ ls
                ∧ p = move_calls b n b target
                ∧ objects r.2 = delete (b, n) (<[(b, target) := text]> (objects w0)))
               ∨ (((INFO, G_move_ok) ∉ ls)
                  ∧ (ERROR, H_move_failed target) ∈ ls)))).
Proof.
  intros Hfolder r target. subst r. rewrite processing_unfold.
  pose proof (target_differs n Hfolder) as Hg. fold target in Hg.
  destruct (content_fetch_run b n w0)
    as (res & cs & ls & -> & Hmv & Hok & Hcase).
  destruct Hcase as [(e & F & -> & -> & ->)
                    |[(F & Hwhy & -> & Hpre)|(stored & Hacc & Hobj & -> & ->)]].
  - exists [], [CClient]. cbn -[app]. split; [done|]. split; [done|]. split; [done|].
    left. exists e. done.
  - exists (ls ++ [(ERROR, H_fetch_failed); (INFO, H_finished)])%list, cs.
    cbn -[app]. split; [by rewrite <- !app_assoc|]. split; [done|]. split; [done|].
    right. left. split; [done|]. split; [done|]. split; [done|]. split; [done|].
    split; [apply elem_of_app; right; mem|].
    split; [rewrite elem_of_app; intros [?|Hin]; [done|revert Hin; notmem]|].
    split; [|done]. rewrite List.filter_app, Hmv. reflexivity.
  - cbv zeta. fold target.
    match goal with
    | |- context [move_blob ?self None None (Some b) (Some target) ?w2] =>
        destruct (move_blob_run self None None (Some b) (Some target) w2 b n b target)
          as (ok & o' & p & ls2 & Hrun & Hp & Hpre & Hmv2 & Hend)
    end.
    { reflexivity. }
    { unfold target_names. cbn [fst snd self_bucket_name].
      rewrite py_or_str_default. unfold py_or_str.
      by rewrite (target_nonempty (blob_path n) : String.eqb target "" = false). }
    { intros [= Heq]. apply String.eqb_neq in Hg. by apply Hg. }
    rewrite Hrun. clear Hrun. cbn -[app] in Hend.
    set (mid := [(INFO, H_read_ok (String.length (text_of w0 "utf-8" stored)));
                 (INFO, H_sample (take 5 (raw_data (text_of w0 "utf-8" stored))))]).
    destruct Hend as [(-> & Hin & -> & text & Hobj2 & ->)|(-> & Hnot)].
    + exists (ls ++ mid ++ ls2 ++ [(INFO, H_finished)])%list,
             (fetch_calls b n ++ move_calls b n b target)%list.
      cbn -[app]. split; [by rewrite <- !app_assoc|].
      split; [by rewrite <- !app_assoc|]. split; [done|].
      right. right. exists stored, (move_calls b n b target).
      split; [done|]. split; [done|]. split; [done|]. split; [done|].
      split; [done|]. split; [done|].
      split. { rewrite !List.filter_app, Hmv, Hmv2. reflexivity. }
      left. split; [rewrite !elem_of_app; auto|]. split; [done|].
      rewrite Hobj in Hobj2. by injection Hobj2 as ->.
    + exists (ls ++ mid ++ ls2 ++ [(ERROR, H_move_failed target); (INFO, H_finished)])%list,
             (fetch_calls b n ++ p)%list.
      cbn -[app]. split; [by rewrite <- !app_assoc|].
      split; [by rewrite <- !app_assoc|]. split; [done|].
      right. right. exists stored, p.
      split; [done|]. split; [done|]. split; [done|]. split; [done|].
      split; [done|]. split; [done|].
      split. { rewrite !List.filter_app, Hmv, Hmv2. reflexivity. }
      right. split.
      * rewrite !elem_of_app. intros [?|[Hin|[?|Hin]]]; [done| |done|];
          revert Hin; notmem.
      * rewrite !elem_of_app. right. right. right. mem.
Qed.

Lemma content_fetch_Raise (b n : string) (w : World) (e : Exn) :
  faults w (calls w) CClient = Some e → (content_fetch b n w).1 = Raise e.
Proof. intros F. unfold_adapter. run. by rewrite F. Qed.

Lemma new_logs_app (w w' : World) ls :
  logs w' = (logs w ++ ls)%list → new_logs w w' = ls.
Proof. unfold new_logs. intros ->. by rewrite drop_app_length. Qed.

Lemma new_calls_app (w w' : World) cs :
  calls w' = (calls w ++ cs)%list → new_calls w w' = cs.
Proof. unfold new_calls. intros ->. by rewrite drop_app_length. Qed.

Lemma fetch_prefix_no_write (b n : string) (cs : list Call) :
  cs `prefix_of` fetch_calls b n → List.filter is_write cs = [].
Proof.
  intros [k Hk].
  assert (List.filter is_write (cs ++ k) = []) as H by by rewrite <- Hk.
  rewrite List.filter_app in H. by apply app_eq_nil in H as [? _].
Qed.

(** ** Name resolution of the adapter (modules/gcs.py) *)

(** [a or d], read off the argument and the instance default. *)
Lemma py_or_omitted (a d : option string) :
  a = None ∨ a = Some "" → py_or a d = d.
Proof. by intros [->| ->]. Qed.

Lemma py_or_given (r : string) (d : option string) :
  r ≠ "" → py_or (Some r) d = Some r.
Proof. intros H%String.eqb_neq. unfold py_or, truthy. by rewrite H. Qed.

(** The name an argument stands for: the instance default when it is left
    out or empty, itself when it is a non-empty string. *)
Lemma py_or_resolved (a d : option string) (r : string) :
  ((a = None ∨ a = Some "") ∧ d = Some r) ∨ (a = Some r ∧ r ≠ "") →
  py_or a d = Some r.
Proof.
  intros [[Ha ->]|[-> Hr]]; [by apply py_or_omitted|by apply py_or_given].
Qed.

(** The target bucket [move_blob] settles on. *)
Lemma target_bucket_resolved (tb d : option string) (rb t_b : string) :
  ((tb = None ∨ tb = Some "") ∧ d = Some t_b ∧ t_b ≠ "")
  ∨ ((tb = None ∨ tb = Some "") ∧ (d = None ∨ d = Some "") ∧ t_b = rb)
  ∨ (tb = Some t_b ∧ t_b ≠ "") →
  py_or_str (py_or tb d) rb = t_b.
Proof.
  intros [(Ht & -> & Hne)|[(Ht & Hd & ->)|[-> Hne]]].
  - rewrite (py_or_omitted _ _ Ht). cbn. apply String.eqb_neq in Hne. by rewrite Hne.
  - rewrite (py_or_omitted _ _ Ht). by destruct Hd as [->| ->].
  - rewrite (py_or_given _ _ Hne). cbn. apply String.eqb_neq in Hne. by rewrite Hne.
Qed.

(** The target object [move_blob] settles on. *)
Lemma target_blob_resolved (tn : option string) (rn t_n : string) :
  ((tn = None ∨ tn = Some "") ∧ t_n = rn) ∨ (tn = Some t_n ∧ t_n ≠ "") →
  py_or_str tn rn = t_n.
Proof.
  intros [[[->| ->] ->]|[-> Hne]]; [done|done|].
  cbn. apply String.eqb_neq in Hne. by rewrite Hne.
Qed.

(** [get_blob] works on the names its arguments resolve to. *)
Lemma get_blob_names self b n rb rn w :
  py_or b (self_bucket_name self) = Some rb →
  py_or n (self_blob_name self) = Some rn →
  let r := get_blob self b n w in
  (accepted (faults w) (calls w) [CBucket rb; CBlob rb rn] →
   r.1 = Ok (Some (mkBlob rb rn)))
  ∧ new_calls w r.2 ≠ []
  ∧ new_calls w r.2 `prefix_of` [CBucket rb; CBlob rb rn].
Proof.
  intros Hb Hn. destruct w as [o f c l d]. cbv zeta.
  unfold get_blob, _get_validated_names, _get_blob_or_none, issue. run.
  rewrite Hb, Hn. cbn.
  next_fault_of f.
  { split; [intros (? & _); congruence|]. lists. split; [done|by eexists]. }
  next_fault_of f.
  { split; [intros (_ & ? & _); congruence|]. lists. split; [done|by eexists]. }
  split; [done|]. lists. split; [done|by eexists].
Qed.

(** [get_blob_content] reads the object its arguments resolve to. *)
Lemma get_blob_content_names self b n enc rb rn w :
  py_or b (self_bucket_name self) = Some rb →
  py_or n (self_blob_name self) = Some rn →
  let r := get_blob_content self b n enc w in
  (accepted (faults w) (calls w) [CBucket rb; CBlob rb rn; COpenRead rb rn enc] →
   r.1 = Ok (text_of w enc <$> objects w !! (rb, rn)))
  ∧ new_calls w r.2 ≠ []
  ∧ new_calls w r.2 `prefix_of` [CBucket rb; CBlob rb rn; COpenRead rb rn enc].
Proof.
  intros Hb Hn. destruct w as [o f c l d]. cbv zeta.
  unfold get_blob_content, get_blob, _get_validated_names, _get_blob_or_none,
    open_read, issue. run.
  rewrite Hb, Hn. cbn.
  next_fault_of f.
  { split; [intros (? & _); congruence|]. lists. split; [done|by eexists]. }
  next_fault_of f.
  { split; [intros (_ & ? & _); congruence|]. lists. split; [done|by eexists]. }
  next_fault_of f.
  { split; [intros (_ & _ & ? & _); congruence|]. lists. split; [done|by eexists]. }
  destruct (o !! (rb, rn)) as [stored|]; cbn.
  - split; [done|]. lists. split; [done|by eexists].
  - split; [done|]. lists. split; [done|by eexists].
Qed.

(** [move_blob] on the names its arguments resolve to: the same-location
    check, or one attempt from the source to the target. *)
Lemma move_blob_names self sb sn tb tn rb rn t_b t_n w :
  py_or sb (self_bucket_name self) = Some rb →
  py_or sn (self_blob_name self) = Some rn →
  py_or_str (py_or tb (self_bucket_name self)) rb = t_b →
  py_or_str tn rn = t_n →
  let r := move_blob self sb sn tb tn w in
  ((t_b, t_n) = (rb, rn) → r.1 = Ok false ∧ no_contact w r.2)
  ∧ ((t_b, t_n) ≠ (rb, rn) →
     List.filter is_moving (new_logs w r.2) = [(INFO, G_moving rb rn t_b t_n)]
     ∧ new_calls w r.2 ≠ []
     ∧ new_calls w r.2 `prefix_of` move_calls rb rn t_b t_n).
Proof.
  intros Hb Hn Htb Htn. cbv zeta.
  assert (validated_names self sb sn = Some (rb, rn)) as Hsrc.
  { unfold validated_names. by rewrite Hb, Hn. }
  assert (target_names self tb tn (rb, rn) = (t_b, t_n)) as Htgt.
  { unfold target_names. cbn [fst snd]. by rewrite Htb, Htn. }
  split.
  - intros Heq. apply move_blob_not_attempted. right. exists (rb, rn).
    split; [done|]. by rewrite Htgt.
  - intros Hne.
    destruct (move_blob_run self sb sn tb tn w rb rn t_b t_n Hsrc Htgt Hne)
      as (ok & o' & p & ls & -> & Hp & Hpre & Hmv & _).
    cbn [snd].
    rewrite (new_logs_app w _ ls) by done.
    rewrite (new_calls_app w _ p) by done.
    done.
Qed.

(** With a name still absent after defaulting the three operations give
    up before any call. *)
Lemma adapter_absent self b n enc w :
  py_or b (self_bucket_name self) = None ∨ py_or n (self_blob_name self) = None →
  ((get_blob self b n w).1 = Ok None ∧ no_contact w (get_blob self b n w).2)
  ∧ ((get_blob_content self b n enc w).1 = Ok None
     ∧ no_contact w (get_blob_content self b n enc w).2)
  ∧ (∀ tb tn, (move_blob self b n tb tn w).1 = Ok false
              ∧ no_contact w (move_blob self b n tb tn w).2).
Proof.
  intros H.
  assert (validated_names self b n = None) as Hnone.
  { unfold validated_names. destruct H as [-> | ->]; [done|].
    by destruct (py_or b _). }
  split; [by apply get_blob_missing|].
  split; [by apply get_blob_content_missing|].
  intros tb tn. apply move_blob_not_attempted. by left.
Qed.

(** C8 (amended): in [get_blob], [get_blob_content] and for the source of
    [move_blob], an omitted bucket or object argument falls back to the
    instance default: the operation works on the default name ([rb],
    [rn] below), as its result and the calls it issues show.  When a name
    is still absent after that, the operation fails at once ([None],
    [None], [False]) without any call to the storage library.  The target
    of [move_blob] is resolved otherwise: an omitted target bucket falls
    back to the instance default bucket when that is set and not empty,
    and else to the resolved source bucket; an omitted target object falls
    back to the resolved source object, whatever the instance default; a
    target is therefore never absent. *)
Theorem C8_defaulting (self : GCSClient) (enc : string) (w : World) :
  (∀ b n rb rn,
     (b = None ∧ self_bucket_name self = Some rb) ∨ (b = Some rb ∧ rb ≠ "") →
     (n = None ∧ self_blob_name self = Some rn) ∨ (n = Some rn ∧ rn ≠ "") →
     ((accepted (faults w) (calls w) [CBucket rb; CBlob rb rn] →
       (get_blob self b n w).1 = Ok (Some (mkBlob rb rn)))
      ∧ new_calls w (get_blob self b n w).2 ≠ []
      ∧ new_calls w (get_blob self b n w).2 `prefix_of` [CBucket rb; CBlob rb rn])
     ∧ ((accepted (faults w) (calls w)
           [CBucket rb; CBlob rb rn; COpenRead rb rn enc] →
         (get_blob_content self b n enc w).1
         = Ok (text_of w enc <$> objects w !! (rb, rn)))
        ∧ new_calls w (get_blob_content self b n enc w).2 ≠ []
        ∧ new_calls w (get_blob_content self b n enc w).2
            `prefix_of` [CBucket rb; CBlob rb rn; COpenRead rb rn enc])
     ∧ (∀ tb tn t_b t_n,
          (tb = None ∧ self_bucket_name self = Some t_b ∧ t_b ≠ "")
          ∨ (tb = None
             ∧ (self_bucket_name self = None ∨ self_bucket_name self = Some "")
             ∧ t_b = rb)
          ∨ (tb = Some t_b ∧ t_b ≠ "") →
          (tn = None ∧ t_n = rn) ∨ (tn = Some t_n ∧ t_n ≠ "") →
          let r := move_blob self b n tb tn w in
          ((t_b, t_n) = (rb, rn) → r.1 = Ok false ∧ no_contact w r.2)
          ∧ ((t_b, t_n) ≠ (rb, rn) →
             List.filter is_moving (new_logs w r.2)
             = [(INFO, G_moving rb rn t_b t_n)]
             ∧ new_calls w r.2 ≠ []
             ∧ new_calls w r.2 `prefix_of` move_calls rb rn t_b t_n)))
  ∧ (∀ b n,
       (b = None ∧ self_bucket_name self = None)
       ∨ (n = None ∧ self_blob_name self = None) →
       ((get_blob self b n w).1 = Ok None ∧ no_contact w (get_blob self b n w).2)
       ∧ ((get_blob_content self b n enc w).1 = Ok None
          ∧ no_contact w (get_blob_content self b n enc w).2)
       ∧ (∀ tb tn, (move_blob self b n tb tn w).1 = Ok false
                   ∧ no_contact w (move_blob self b n tb tn w).2)).
Proof.
  split.
  - intros b n rb rn Hb Hn.
    assert (py_or b (self_bucket_name self) = Some rb) as Hrb.
    { apply py_or_resolved. destruct Hb as [[-> ?]|?]; [left|right]; auto. }
    assert (py_or n (self_blob_name self) = Some rn) as Hrn.
    { apply py_or_resolved. destruct Hn as [[-> ?]|?]; [left|right]; auto. }
    split; [by apply get_blob_names|].
    split; [by apply get_blob_content_names|].
    intros tb tn t_b t_n Htb Htn.
    apply move_blob_names; [done|done| |].
    + apply target_bucket_resolved.
      destruct Htb as [(-> & ? & ?)|[(-> & ? & ?)|?]]; auto 6.
    + apply target_blob_resolved. destruct Htn as [[-> ?]|?]; auto.
  - intros b n H. apply adapter_absent.
    destruct H as [[-> ->]|[-> ->]]; [by left|by right].
Qed.

Lemma C8_defaulting_witness :
  (get_blob demo_client None None demo_world).1
  = Ok (Some (mkBlob SOURCE_BUCKET "raw_data/a.txt"))
  ∧ (get_blob_content demo_client None None "utf-8" demo_world).1
    = Ok (Some sample_content)
  ∧ List.filter is_moving
      (new_logs demo_world
         (move_blob demo_client None None None (Some demo_target) demo_world).2)
    = [(INFO, G_moving SOURCE_BUCKET "raw_data/a.txt" SOURCE_BUCKET demo_target)]
  ∧ (get_blob bare_client None None demo_world).1 = Ok None
  ∧ (get_blob_content bare_client None None "utf-8" demo_world).1 = Ok None
  ∧ (move_blob bare_client None None None None demo_world).1 = Ok false.
Proof.
  destruct (C8_defaulting demo_client "utf-8" demo_world) as [Hset _].
  destruct (Hset None None SOURCE_BUCKET "raw_data/a.txt")
    as ((H1 & _) & (H2 & _) & H3); [by left|by left|].
  destruct (H3 None (Some demo_target) SOURCE_BUCKET demo_target) as [_ H4].
  { left. split; [reflexivity|]. split; [reflexivity|]. discriminate. }
  { right. split; [reflexivity|]. discriminate. }
  destruct H4 as (H4 & _); [discriminate|].
  destruct (C8_defaulting bare_client "utf-8" demo_world) as [_ Hunset].
  destruct (Hunset None None) as ((H5 & _) & (H6 & _) & H7); [by left|].
  destruct (H7 None None) as [H8 _].
  split; [apply H1; vm_compute; repeat split|].
  split; [apply H2; vm_compute; repeat split|].
  split; [exact H4|]. split; [exact H5|]. split; [exact H6|exact H8].
Defined.

(** C8 as stated fails on the target of [move_blob]: the omitted target
    object is not taken from the instance default (["raw_data/x.txt"]) but
    from the source object passed in the call; and with no instance
    default at all an omitted target bucket does not stop the operation,
    which copies and deletes within the source bucket. *)
Lemma C8_target_not_instance_default :
  self_blob_name other_client = Some "raw_data/x.txt"
  ∧ new_calls demo_world
      (move_blob other_client None (Some "raw_data/a.txt") (Some "archive") None
         demo_world).2
    = move_calls SOURCE_BUCKET "raw_data/a.txt" "archive" "raw_data/a.txt"
  ∧ self_bucket_name bare_client = None
  ∧ (move_blob bare_client (Some SOURCE_BUCKET) (Some "raw_data/a.txt") None
       (Some demo_target) demo_world).1 = Ok true
  ∧ new_calls demo_world
      (move_blob bare_client (Some SOURCE_BUCKET) (Some "raw_data/a.txt") None
         (Some demo_target) demo_world).2
    = move_calls SOURCE_BUCKET "raw_data/a.txt" SOURCE_BUCKET demo_target.
Proof. vm_compute. repeat split. Qed.

(** C10 (amended): an argument passed as the empty string is treated
    exactly like an omitted one by every operation: the operation run
    with the one is the operation run with the other.  For the names
    settled by [_get_validated_names] (those of [get_blob] and
    [get_blob_content], and the source of [move_blob]) the empty string
    resolves to the instance default: the operation works on the default
    name ([rb], [rn] below), as its result and the calls it issues show,
    and it fails without any call only when that default is unset.  For
    the target of [move_blob] the empty string resolves to the instance
    default bucket when that is set and not empty and else to the
    resolved source bucket, and to the resolved source object. *)
Theorem C10_empty_string_is_omitted (self : GCSClient) (enc : string) (w : World) :
  ((∀ n, get_blob self (Some "") n = get_blob self None n)
   ∧ (∀ b, get_blob self b (Some "") = get_blob self b None)
   ∧ (∀ n enc, get_blob_content self (Some "") n enc = get_blob_content self None n enc)
   ∧ (∀ b enc, get_blob_content self b (Some "") enc = get_blob_content self b None enc)
   ∧ (∀ sn tb tn, move_blob self (Some "") sn tb tn = move_blob self None sn tb tn)
   ∧ (∀ sb tb tn, move_blob self sb (Some "") tb tn = move_blob self sb None tb tn)
   ∧ (∀ sb sn tn, move_blob self sb sn (Some "") tn = move_blob self sb sn None tn)
   ∧ (∀ sb sn tb, move_blob self sb sn tb (Some "") = move_blob self sb sn tb None))
  ∧ (∀ b n rb rn,
       (b = Some "" ∧ self_bucket_name self = Some rb) ∨ (b = Some rb ∧ rb ≠ "") →
       (n = Some "" ∧ self_blob_name self = Some rn) ∨ (n = Some rn ∧ rn ≠ "") →
       ((accepted (faults w) (calls w) [CBucket rb; CBlob rb rn] →
         (get_blob self b n w).1 = Ok (Some (mkBlob rb rn)))
        ∧ new_calls w (get_blob self b n w).2 ≠ []
        ∧ new_calls w (get_blob self b n w).2 `prefix_of` [CBucket rb; CBlob rb rn])
       ∧ ((accepted (faults w) (calls w)
             [CBucket rb; CBlob rb rn; COpenRead rb rn enc] →
           (get_blob_content self b n enc w).1
           = Ok (text_of w enc <$> objects w !! (rb, rn)))
          ∧ new_calls w (get_blob_content self b n enc w).2 ≠ []
          ∧ new_calls w (get_blob_content self b n enc w).2
              `prefix_of` [CBucket rb; CBlob rb rn; COpenRead rb rn enc])
       ∧ (∀ tb tn t_b t_n,
            (tb = Some "" ∧ self_bucket_name self = Some t_b ∧ t_b ≠ "")
            ∨ (tb = Some ""
               ∧ (self_bucket_name self = None ∨ self_bucket_name self = Some "")
               ∧ t_b = rb)
            ∨ (tb = Some t_b ∧ t_b ≠ "") →
            (tn = Some "" ∧ t_n = rn) ∨ (tn = Some t_n ∧ t_n ≠ "") →
            let r := move_blob self b n tb tn w in
            ((t_b, t_n) = (rb, rn) → r.1 = Ok false ∧ no_contact w r.2)
            ∧ ((t_b, t_n) ≠ (rb, rn) →
               List.filter is_moving (new_logs w r.2)
               = [(INFO, G_moving rb rn t_b t_n)]
               ∧ new_calls w r.2 ≠ []
               ∧ new_calls w r.2 `prefix_of` move_calls rb rn t_b t_n)))
  ∧ (∀ b n,
       (b = Some "" ∧ self_bucket_name self = None)
       ∨ (n = Some "" ∧ self_blob_name self = None) →
       ((get_blob self b n w).1 = Ok None ∧ no_contact w (get_blob self b n w).2)
       ∧ ((get_blob_content self b n enc w).1 = Ok None
          ∧ no_contact w (get_blob_content self b n enc w).2)
       ∧ (∀ tb tn, (move_blob self b n tb tn w).1 = Ok false
                   ∧ no_contact w (move_blob self b n tb tn w).2)).
Proof.
  split; [repeat split|]. split.
  - intros b n rb rn Hb Hn.
    assert (py_or b (self_bucket_name self) = Some rb) as Hrb.
    { apply py_or_resolved. destruct Hb as [[-> ?]|?]; [left|right]; auto. }
    assert (py_or n (self_blob_name self) = Some rn) as Hrn.
    { apply py_or_resolved. destruct Hn as [[-> ?]|?]; [left|right]; auto. }
    split; [by apply get_blob_names|].
    split; [by apply get_blob_content_names|].
    intros tb tn t_b t_n Htb Htn.
    apply move_blob_names; [done|done| |].
    + apply target_bucket_resolved.
      destruct Htb as [(-> & ? & ?)|[(-> & ? & ?)|?]]; auto 6.
    + apply target_blob_resolved. destruct Htn as [[-> ?]|?]; auto.
  - intros b n H. apply adapter_absent.
    destruct H as [[-> ->]|[-> ->]]; [by left|by right].
Qed.

Lemma C10_empty_string_is_omitted_witness :
  (get_blob demo_client (Some "") (Some "") demo_world).1
  = Ok (Some (mkBlob SOURCE_BUCKET "raw_data/a.txt"))
  ∧ (get_blob_content demo_client (Some "") (Some "") "utf-8" demo_world).1
    = Ok (Some sample_content)
  ∧ List.filter is_moving
      (new_logs demo_world
         (move_blob demo_client (Some "") (Some "") (Some "") (Some demo_target)
            demo_world).2)
    = [(INFO, G_moving SOURCE_BUCKET "raw_data/a.txt" SOURCE_BUCKET demo_target)]
  ∧ (get_blob bare_client (Some "") (Some "") demo_world).1 = Ok None
  ∧ (move_blob bare_client (Some "") (Some "") (Some "") (Some "") demo_world).1
    = Ok false.
Proof.
  destruct (C10_empty_string_is_omitted demo_client "utf-8" demo_world)
    as (_ & Hset & _).
  destruct (Hset (Some "") (Some "") SOURCE_BUCKET "raw_data/a.txt")
    as ((H1 & _) & (H2 & _) & H3); [by left|by left|].
  destruct (H3 (Some "") (Some demo_target) SOURCE_BUCKET demo_target) as [_ H4].
  { left. split; [reflexivity|]. split; [reflexivity|]. discriminate. }
  { right. split; [reflexivity|]. discriminate. }
  destruct H4 as (H4 & _); [discriminate|].
  destruct (C10_empty_string_is_omitted bare_client "utf-8" demo_world)
    as (_ & _ & Hunset).
  destruct (Hunset (Some "") (Some "")) as ((H5 & _) & _ & H7); [by left|].
  destruct (H7 (Some "") (Some "")) as [H8 _].
  split; [apply H1; vm_compute; repeat split|].
  split; [apply H2; vm_compute; repeat split|].
  split; [exact H4|]. split; [exact H5|exact H8].
Defined.

(** C10 as stated fails on the target object of [move_blob]: passed as the
    empty string while the instance default is set (["raw_data/x.txt"]), it
    resolves to the source object given in the call. *)
Lemma C10_empty_target_not_instance_default :
  self_blob_name other_client = Some "raw_data/x.txt"
  ∧ target_names other_client (Some "archive") (Some "")
      (SOURCE_BUCKET, "raw_data/a.txt") = ("archive", "raw_data/a.txt")
  ∧ new_calls demo_world
      (move_blob other_client None (Some "raw_data/a.txt") (Some "archive") (Some "")
         demo_world).2
    = move_calls SOURCE_BUCKET "raw_data/a.txt" "archive" "raw_data/a.txt".
Proof. vm_compute. repeat split. Qed.

(** The validated notification in the world the handler has reached when
    it starts [processing]. *)
Lemma handler_validated_world (data : Payload) (w : World) (n : string) :
  dict_get data "bucket" (PyStr "") = PyStr SOURCE_BUCKET →
  name_of data = Some n →
  folder_path n = SOURCE_FOLDER →
  ∃ w0, handle_gcs_event_data data w = processing SOURCE_BUCKET n w0
        ∧ logs w0 = (logs w ++ [(INFO, H_received (PyStr SOURCE_BUCKET) n);
                                (DEBUG, H_folder_check SOURCE_FOLDER);
                                (INFO, H_validated SOURCE_BUCKET n)])%list
        ∧ calls w0 = calls w ∧ faults w0 = faults w ∧ objects w0 = objects w.
Proof.
  intros Hb Hn Hf. eexists. split.
  - apply handler_validated; [done| |done]. rewrite Hb. apply equal_str_Some. done.
  - rewrite Hb, Hf. cbn -[app]. rewrite <- !app_assoc. done.
Qed.

(** ** The handler as a whole *)



(** What a validated notification leaves behind, read off [processing]. *)
Lemma handler_validated_outcome (data : Payload) (w : World) (n : string) :
  dict_get data "bucket" (PyStr "") = PyStr SOURCE_BUCKET →
  name_of data = Some n →
  folder_path n = SOURCE_FOLDER →
  let r := handle_gcs_event_data data w in
  let target := TARGET_FOLDER ++ "/" ++ blob_path n in
  ∃ ls cs,
    new_logs w r.2 = (validated_logs n ++ ls)%list
    ∧ new_calls w r.2 = cs
    ∧ faults r.2 = faults w
    ∧ ((∃ e, faults w (calls w) CClient = Some e ∧ r.1 = Raise e
             ∧ cs = [CClient] ∧ ls = [] ∧ objects r.2 = objects w)
       ∨ (faults w (calls w) CClient = None
          ∧ (¬ accepted (faults w) (calls w) (fetch_calls SOURCE_BUCKET n)
             ∨ objects w !! (SOURCE_BUCKET, n) = None)
          ∧ r.1 = Ok ()
          ∧ cs `prefix_of` fetch_calls SOURCE_BUCKET n
          ∧ (ERROR, H_fetch_failed) ∈ ls
          ∧ ((INFO, G_move_ok) ∉ ls)
          ∧ List.filter is_moving ls = []
          ∧ objects r.2 = objects w)
       ∨ (∃ text p,
            accepted (faults w) (calls w) (fetch_calls SOURCE_BUCKET n)
            ∧ objects w !! (SOURCE_BUCKET, n) = Some text
            ∧ r.1 = Ok ()
            ∧ cs = (fetch_calls SOURCE_BUCKET n ++ p)%list
            ∧ p ≠ []
            ∧ p `prefix_of` move_calls SOURCE_BUCKET n SOURCE_BUCKET target
            ∧ List.filter is_moving ls
              = [(INFO, G_moving SOURCE_BUCKET n SOURCE_BUCKET target)]
            ∧ (((INFO, G_move_ok) ∈ ls
                ∧ p = move_calls SOURCE_BUCKET n SOURCE_BUCKET target
                ∧ objects r.2 = delete (SOURCE_BUCKET, n)
                                  (<[(SOURCE_BUCKET, target) := text]> (objects w)))
               ∨ (((INFO, G_move_ok) ∉ ls)
                  ∧ (ERROR, H_move_failed target) ∈ ls)))).
Proof.
  intros Hb Hn Hf. cbv zeta.
  destruct (handler_validated_world data w n Hb Hn Hf)
    as (w0 & -> & Hl0 & Hc0 & Hf0 & Ho0).
  destruct (processing_outcome SOURCE_BUCKET n w0 Hf)
    as (ls & cs & Hl & Hc & Hfa & Hcase).
  cbv zeta in Hcase. rewrite Hc0, Hf0, Ho0 in Hcase.
  exists ls, cs.
  split. { apply new_logs_app. rewrite Hl, Hl0. by rewrite <- app_assoc. }
  split. { apply new_calls_app. by rewrite Hc, Hc0. }
  split; [congruence|]. exact Hcase.
Qed.

(** C5: when the content fetch of a qualifying notification yields no
    content, the handler logs an error and returns without any relocation:
    no copy and no delete call is issued (its calls are at most those of
    the fetch), [move_blob] never sets out to copy, and the stored objects
    are unchanged. *)
Theorem C5_fetch_failure_no_relocation (data : Payload) (w : World) (n : string) :
  dict_get data "bucket" (PyStr "") = PyStr SOURCE_BUCKET →
  name_of data = Some n →
  folder_path n = SOURCE_FOLDER →
  (content_fetch SOURCE_BUCKET n w).1 = Ok None →
  let r := handle_gcs_event_data data w in
  r.1 = Ok ()
  ∧ (ERROR, H_fetch_failed) ∈ new_logs w r.2
  ∧ List.filter is_moving (new_logs w r.2) = []
  ∧ new_calls w r.2 `prefix_of` fetch_calls SOURCE_BUCKET n
  ∧ List.filter is_write (new_calls w r.2) = []
  ∧ objects r.2 = objects w.
Proof.
  intros Hb Hn Hf Hfetch. cbv zeta.
  destruct (handler_validated_outcome data w n Hb Hn Hf)
    as (ls & cs & Hl & Hc & _ & Hcase). cbv zeta in Hcase.
  destruct Hcase as [(e & F & _)|[(_ & _ & Hr & Hpre & Hlog & _ & Hmov & Hobj)|Hcase]].
  - rewrite (content_fetch_Raise _ _ _ _ F) in Hfetch. discriminate.
  - rewrite Hl, Hc. split; [done|].
    split; [apply elem_of_app; by right|].
    split; [by rewrite List.filter_app, Hmov|].
    split; [done|]. split; [by eapply fetch_prefix_no_write|done].
  - destruct Hcase as (text & p & Hacc & Hobj & _).
    assert ((content_fetch SOURCE_BUCKET n w).1
            = Ok (Some (text_of w "utf-8" text))) as H.
    { apply content_fetch_Some. split; [done|]. by exists text. }
    congruence.
Qed.

Lemma C5_fetch_failure_no_relocation_witness :
  (content_fetch SOURCE_BUCKET "raw_data/a.txt" empty_world).1 = Ok None
  ∧ (handle_gcs_event_data demo_event empty_world).1 = Ok ()
  ∧ (ERROR, H_fetch_failed)
      ∈ new_logs empty_world (handle_gcs_event_data demo_event empty_world).2
  ∧ List.filter is_write
      (new_calls empty_world (handle_gcs_event_data demo_event empty_world).2) = [].
Proof.
  split; [reflexivity|].
  destruct (C5_fetch_failure_no_relocation demo_event empty_world "raw_data/a.txt")
    as (H1 & H2 & _ & _ & H5 & _); [reflexivity..|].
  exact (conj H1 (conj H2 H5)).
Defined.

(** C1: for a notification from [SOURCE_BUCKET] whose folder path is
    [SOURCE_FOLDER] and whose content fetch returns text, the handler
    returns after exactly one relocation attempt: [move_blob] sets out
    once, from the notification's object to the object
    [TARGET_FOLDER/<final segment>] of the notification's own bucket, and
    the calls that follow the fetch are a non-empty initial part of that
    one relocation's calls. *)
Theorem C1_relocation_target (data : Payload) (w : World) (n text : string) :
  dict_get data "bucket" (PyStr "") = PyStr SOURCE_BUCKET →
  name_of data = Some n →
  folder_path n = SOURCE_FOLDER →
  (content_fetch SOURCE_BUCKET n w).1 = Ok (Some text) →
  let r := handle_gcs_event_data data w in
  let target := TARGET_FOLDER ++ "/" ++ blob_path n in
  r.1 = Ok ()
  ∧ last (split SLASH n) = Some (blob_path n)
  ∧ List.filter is_moving (new_logs w r.2)
    = [(INFO, G_moving SOURCE_BUCKET n SOURCE_BUCKET target)]
  ∧ ∃ p, new_calls w r.2 = (fetch_calls SOURCE_BUCKET n ++ p)%list
         ∧ p ≠ []
         ∧ p `prefix_of` move_calls SOURCE_BUCKET n SOURCE_BUCKET target.
Proof.
  intros Hb Hn Hf Hfetch. cbv zeta.
  apply content_fetch_Some in Hfetch as (Hacc & stored & Hobj & _).
  destruct (handler_validated_outcome data w n Hb Hn Hf)
    as (ls & cs & Hl & Hc & _ & Hcase). cbv zeta in Hcase.
  destruct Hcase as [(e & F & _)|[(_ & Hno & _)|Hcase]].
  - destruct Hacc as [F' _]. congruence.
  - destruct Hno; [done|congruence].
  - destruct Hcase as (text' & p & _ & _ & Hr & Hcs & Hp & Hpre & Hmov & _).
    split; [done|]. split; [apply blob_path_last|].
    split. { rewrite Hl, List.filter_app, Hmov. done. }
    exists p. rewrite Hc. done.
Qed.

Lemma C1_relocation_target_witness :
  (content_fetch SOURCE_BUCKET "raw_data/a.txt" demo_world).1 = Ok (Some sample_content)
  ∧ (handle_gcs_event_data demo_event demo_world).1 = Ok ()
  ∧ List.filter is_moving
      (new_logs demo_world (handle_gcs_event_data demo_event demo_world).2)
    = [(INFO, G_moving SOURCE_BUCKET "raw_data/a.txt" SOURCE_BUCKET
                (TARGET_FOLDER ++ "/" ++ blob_path "raw_data/a.txt"))].
Proof.
  split; [reflexivity|].
  destruct (C1_relocation_target demo_event demo_world "raw_data/a.txt" sample_content)
    as (H1 & _ & H3 & _); [reflexivity..|].
  exact (conj H1 H3).
Defined.

Lemma data_ingest_process_result (data : Payload) (w : World) :
  (data_ingest_process data w).1
  = (handle_gcs_event_data data (add_log INFO M_invoked w)).1.
Proof.
  unfold data_ingest_process. run.
  destruct (handle_gcs_event_data data _) as [[[]|e] w']; done.
Qed.

Lemma handler_result (data : Payload) (w : World) (n : string) :
  name_of data = Some n →
  (handle_gcs_event_data data w).1 = Ok ()
  ∨ ∃ e, (handle_gcs_event_data data w).1 = Raise e
         ∧ dict_get data "bucket" (PyStr "") = PyStr SOURCE_BUCKET
         ∧ folder_path n = SOURCE_FOLDER
         ∧ faults w (calls w) CClient = Some e
         ∧ new_calls w (handle_gcs_event_data data w).2 = [CClient].
Proof.
  intros Hn.
  destruct (equal_str (dict_get data "bucket" (PyStr "")) SOURCE_BUCKET)
    as [b|] eqn:Hb.
  2:{ left. apply (handler_filtered data w n Hn). by left. }
  apply equal_str_Some in Hb as [Hb _].
  destruct (String.eqb_spec (folder_path n) SOURCE_FOLDER) as [Hf|Hf].
  2:{ left. apply (handler_filtered data w n Hn). by right. }
  destruct (handler_validated_outcome data w n Hb Hn Hf)
    as (ls & cs & _ & Hc & _ & Hcase). cbv zeta in Hcase.
  destruct Hcase as [(e & F & Hr & -> & _)|[(_ & _ & Hr & _)|Hcase]].
  - right. exists e. done.
  - by left.
  - destruct Hcase as (text & p & _ & _ & Hr & _). by left.
Qed.

(** C9 (amended): for every payload whose ["name"] is absent or a string,
    the handler raises only when a notification passes both filters and
    the construction of the storage client raises; otherwise it returns
    normally: payloads with absent fields end at the filters without any
    call to the storage library, and a failed fetch or a failed relocation
    is logged, not raised.  The same holds for the entry point. *)
Theorem C9_handler_returns (data : Payload) (w : World) (n : string) :
  name_of data = Some n →
  let r := handle_gcs_event_data data w in
  (r.1 = Ok ()
   ∨ ∃ e, r.1 = Raise e
          ∧ dict_get data "bucket" (PyStr "") = PyStr SOURCE_BUCKET
          ∧ folder_path n = SOURCE_FOLDER
          ∧ faults w (calls w) CClient = Some e
          ∧ new_calls w r.2 = [CClient])
  ∧ (faults w (calls w) CClient = None →
     r.1 = Ok () ∧ (data_ingest_process data w).1 = Ok ())
  ∧ (data !! "bucket" = None ∨ data !! "name" = None →
     r.1 = Ok () ∧ no_contact w r.2).
Proof.
  intros Hn. cbv zeta. split; [by apply handler_result|]. split.
  - intros F. split.
    + destruct (handler_result data w n Hn) as [|(e & _ & _ & _ & F' & _)];
        [done|congruence].
    + rewrite data_ingest_process_result.
      destruct (handler_result data (add_log INFO M_invoked w) n Hn)
        as [|(e & _ & _ & _ & F' & _)]; [done|]. cbn in F'. congruence.
  - intros Hmiss. apply (handler_filtered data w n Hn).
    destruct Hmiss as [Hm|Hm].
    + left. unfold dict_get. by rewrite Hm.
    + right. apply name_of_Some in Hn. unfold dict_get in Hn.
      rewrite Hm in Hn. cbn in Hn. by injection Hn as <-.
Qed.

Lemma C9_handler_returns_witness :
  name_of demo_event = Some "raw_data/a.txt"
  ∧ (handle_gcs_event_data demo_event demo_world).1 = Ok ()
  ∧ (data_ingest_process demo_event demo_world).1 = Ok ().
Proof.
  split; [reflexivity|].
  destruct (C9_handler_returns demo_event demo_world "raw_data/a.txt" eq_refl)
    as (_ & H & _).
  exact (H eq_refl).
Defined.

(** C9 as stated fails: a payload whose ["name"] is null makes the handler,
    and with it the entry point, raise [TypeError] before any filter is
    reached; and on a qualifying notification an exception raised while
    the storage client is built leaves the handler as it is. *)
Lemma C9_exceptions_escape :
  (handle_gcs_event_data null_name_event demo_world).1 = Raise TypeError
  ∧ (data_ingest_process null_name_event demo_world).1 = Raise TypeError
  ∧ (handle_gcs_event_data demo_event client_refused_world).1
    = Raise credentials_missing.
Proof. vm_compute. repeat split. Qed.

Lemma validated_logs_no_move_ok (n : string) :
  (INFO, G_move_ok) ∉ validated_logs n.
Proof. notmem. Qed.

(** C7 (amended): when a delivery has relocated the object, delivering the
    same notification again relocates nothing: the notification passes the
    bucket filter and the folder filter again (they read the notification
    only), the object is no longer at its source, so the handler issues no
    copy and no delete call, [move_blob] never sets out, and the stored
    objects are unchanged; when the storage client can be built, the
    handler returns after logging that the content could not be
    retrieved. *)
Theorem C7_redelivery_fetch_fails (data : Payload) (w : World) (n : string) :
  dict_get data "bucket" (PyStr "") = PyStr SOURCE_BUCKET →
  name_of data = Some n →
  folder_path n = SOURCE_FOLDER →
  let w1 := (handle_gcs_event_data data w).2 in
  (INFO, G_move_ok) ∈ new_logs w w1 →
  let r := handle_gcs_event_data data w1 in
  (INFO, H_validated SOURCE_BUCKET n) ∈ new_logs w1 r.2
  ∧ objects w1 !! (SOURCE_BUCKET, n) = None
  ∧ List.filter is_write (new_calls w1 r.2) = []
  ∧ List.filter is_moving (new_logs w1 r.2) = []
  ∧ objects r.2 = objects w1
  ∧ (faults w1 (calls w1) CClient = None →
     r.1 = Ok () ∧ (ERROR, H_fetch_failed) ∈ new_logs w1 r.2).
Proof.
  intros Hb Hn Hf. cbv zeta. intros Hmoved.
  assert (objects (handle_gcs_event_data data w).2 !! (SOURCE_BUCKET, n) = None)
    as Hgone.
  { destruct (handler_validated_outcome data w n Hb Hn Hf)
      as (ls & cs & Hl & _ & _ & Hcase). cbv zeta in Hcase.
    rewrite Hl in Hmoved. apply elem_of_app in Hmoved as [Hin|Hin].
    { by apply validated_logs_no_move_ok in Hin. }
    destruct Hcase as [(e & _ & _ & _ & -> & _)|[(_ & _ & _ & _ & _ & Hno & _)|Hcase]].
    - by apply elem_of_nil in Hin.
    - done.
    - destruct Hcase as (text & p & _ & _ & _ & _ & _ & _ & _ & [(_ & _ & ->)|(Hno & _)]).
      + apply lookup_delete_eq.
      + done. }
  set (w1 := (handle_gcs_event_data data w).2) in *.
  destruct (handler_validated_outcome data w1 n Hb Hn Hf)
    as (ls & cs & Hl & Hc & _ & Hcase). cbv zeta in Hcase.
  rewrite Hl, Hc.
  assert ((INFO, H_validated SOURCE_BUCKET n) ∈ validated_logs n) as Hval by mem.
  destruct Hcase as [(e & F & _ & -> & -> & Ho)|[(F & _ & Hr & Hpre & Hlog & _ & Hmov & Ho)|Hcase]].
  - split; [apply elem_of_app; by left|].
    split; [done|]. split; [done|]. split; [by rewrite app_nil_r|].
    split; [done|]. intros F'. congruence.
  - split; [apply elem_of_app; by left|].
    split; [done|]. split; [by eapply fetch_prefix_no_write|].
    split; [by rewrite List.filter_app, Hmov|].
    split; [done|]. intros _. split; [done|]. apply elem_of_app. by right.
  - destruct Hcase as (text & p & _ & Hobj & _). congruence.
Qed.

Lemma C7_redelivery_fetch_fails_witness :
  let w1 := (handle_gcs_event_data demo_event demo_world).2 in
  (INFO, G_move_ok) ∈ new_logs demo_world w1
  ∧ objects w1 !! (SOURCE_BUCKET, "raw_data/a.txt") = None
  ∧ List.filter is_write (new_calls w1 (handle_gcs_event_data demo_event w1).2) = []
  ∧ objects (handle_gcs_event_data demo_event w1).2 = objects w1.
Proof.
  cbv zeta.
  assert ((INFO, G_move_ok)
          ∈ new_logs demo_world (handle_gcs_event_data demo_event demo_world).2)
    as Hmoved by (vm_compute; mem).
  split; [exact Hmoved|].
  destruct (C7_redelivery_fetch_fails demo_event demo_world "raw_data/a.txt"
              eq_refl eq_refl eq_refl Hmoved) as (_ & H2 & H3 & _ & H5 & _).
  exact (conj H2 (conj H3 H5)).
Defined.

(** C7 as stated fails: after a delivery that relocated the object, the
    same notification passes the folder filter again (the handler logs
    that it validated the file and contacts the storage service); what
    stops the second delivery is the read of the now absent object. *)
Lemma C7_folder_filter_passes_again :
  let w1 := (handle_gcs_event_data demo_event demo_world).2 in
  let w2 := (handle_gcs_event_data demo_event w1).2 in
  objects w1 !! (SOURCE_BUCKET, "raw_data/a.txt") = None
  ∧ objects w1 !! (SOURCE_BUCKET, demo_target) = Some sample_content
  ∧ new_calls w1 w2 = fetch_calls SOURCE_BUCKET "raw_data/a.txt"
  ∧ new_logs w1 w2
    = [(INFO, H_received (PyStr SOURCE_BUCKET) "raw_data/a.txt");
       (DEBUG, H_folder_check "raw_data");
       (INFO, H_validated SOURCE_BUCKET "raw_data/a.txt");
       (DEBUG, G_client_init);
       (DEBUG, G_validating "get_blob" (Some SOURCE_BUCKET) (Some "raw_data/a.txt"));
       (INFO, G_ref_created SOURCE_BUCKET "raw_data/a.txt");
       (DEBUG, G_reading "raw_data/a.txt" "utf-8");
       (ERROR, G_read_failed "raw_data/a.txt" NotFound);
       (ERROR, H_fetch_failed);
       (INFO, H_finished)].
Proof. vm_compute. repeat split. Qed.

(** * Further properties of the code *)

(** ** More on the parsing of object names (handler.py, line 29) *)

Lemma rsplit_last_app (sep : ascii) (p q : string) :
  contains_char sep q = false →
  rsplit_last sep (p ++ String sep q) = Some (p, q).
Proof.
  intros Hq. induction p as [|c p IH]; simpl.
  - apply rsplit_last_None in Hq. rewrite Hq. by rewrite Ascii.eqb_refl.
  - by rewrite IH.
Qed.

Lemma name_parts_of_join (p q : string) :
  contains_char SLASH q = false →
  folder_path (p ++ "/" ++ q) = p ∧ blob_path (p ++ "/" ++ q) = q.
Proof.
  intros Hq. unfold folder_path, blob_path.
  change (p ++ "/" ++ q) with (p ++ String SLASH q).
  by rewrite (rsplit_last_app SLASH p q Hq).
Qed.

(** X1: splitting an object name undoes joining a folder path and a
    slash-free file name: the handler recovers exactly that folder path
    and that file name, whatever slashes the folder path itself holds. *)
Theorem X1_name_parts_of_join (p q : string) :
  contains_char SLASH q = false →
  folder_path (p ++ "/" ++ q) = p ∧ blob_path (p ++ "/" ++ q) = q.
Proof. apply name_parts_of_join. Qed.

Lemma X1_name_parts_of_join_witness :
  contains_char SLASH "x.txt" = false
  ∧ folder_path ("raw_data/2024" ++ "/" ++ "x.txt") = "raw_data/2024"
  ∧ blob_path ("raw_data/2024" ++ "/" ++ "x.txt") = "x.txt".
Proof.
  split; [reflexivity|].
  apply (X1_name_parts_of_join "raw_data/2024" "x.txt"). reflexivity.
Defined.

(** X2: an object name qualifies for the folder filter exactly when it is
    [SOURCE_FOLDER], one slash, and a file name without a slash; names
    without a slash and names nested deeper do not qualify. *)
Theorem X2_folder_filter_names (n : string) :
  folder_path n = SOURCE_FOLDER
  ↔ ∃ file, n = SOURCE_FOLDER ++ "/" ++ file ∧ contains_char SLASH file = false.
Proof.
  split.
  - intros Hf. exists (blob_path n).
    destruct (blob_name_parts n) as [Hn Hq]; [by rewrite Hf|].
    split; [|done]. by rewrite Hf in Hn.
  - intros (file & -> & Hq). by apply name_parts_of_join.
Qed.

(** ** More on the line transform (handler.py, line 59) *)

Lemma split_all_space (sep : ascii) (s x : string) :
  all_space s = true → x ∈ split sep s → all_space x = true.
Proof.
  revert x. induction s as [|c r IH]; intros x; simpl.
  - intros _ ->%list_elem_of_singleton. done.
  - intros [Hc Hr]%andb_true_iff.
    pose proof (split_not_nil sep r) as Hne.
    destruct (Ascii.eqb c sep).
    + intros [->|Hx]%elem_of_cons; [done|]. by apply IH.
    + destruct (split sep r) as [|y ys]; [done|].
      intros [->|Hx]%elem_of_cons.
      * simpl. rewrite Hc. simpl. apply IH; [done|by left].
      * apply IH; [done|by right].
Qed.

Lemma filter_none {A} (P : A → Prop) `{!∀ x, Decision (P x)} (l : list A) :
  (∀ x, x ∈ l → ¬ P x) → filter P l = [].
Proof.
  induction l as [|a l IH]; intros Hall; [done|].
  rewrite filter_cons_False by (apply Hall; by left).
  apply IH. intros x Hx. apply Hall. by right.
Qed.

Lemma filter_all {A} (P : A → Prop) `{!∀ x, Decision (P x)} (l : list A) :
  (∀ x, x ∈ l → P x) → filter P l = l.
Proof.
  induction l as [|a l IH]; intros Hall; [done|].
  rewrite filter_cons_True by (apply Hall; by left).
  f_equal. apply IH. intros x Hx. apply Hall. by right.
Qed.

(** X3: content made of whitespace only (the empty content, blank lines,
    spaces, tabs, line ends) yields no line at all. *)
Theorem X3_raw_data_blank (blob_data : string) :
  all_space blob_data = true → raw_data blob_data = [].
Proof.
  intros Hs. unfold raw_data. apply filter_none. intros x Hx.
  apply (split_all_space LF) in Hx; [|done].
  apply strip_empty in Hx. by intros H.
Qed.

Lemma X3_raw_data_blank_witness :
  all_space (" " ++ String LF (String LF "  ")) = true
  ∧ raw_data (" " ++ String LF (String LF "  ")) = [].
Proof.
  split; [reflexivity|]. apply X3_raw_data_blank. reflexivity.
Defined.

Lemma split_single (sep : ascii) (x : string) :
  contains_char sep x = false → split sep x = [x].
Proof.
  intros Hx%rsplit_last_None. pose proof (rsplit_last_split sep x) as H.
  by rewrite Hx in H.
Qed.

Lemma split_app_sep (sep : ascii) (x r : string) :
  contains_char sep x = false →
  split sep (x ++ String sep r) = x :: split sep r.
Proof.
  induction x as [|c x IH]; simpl.
  - intros _. by rewrite Ascii.eqb_refl.
  - intros [Hc Hx]%orb_false_iff. rewrite Hc, IH by done. done.
Qed.

Lemma split_join (sep : ascii) (l : list string) :
  l ≠ [] → (∀ x, x ∈ l → contains_char sep x = false) →
  split sep (join sep l) = l.
Proof.
  induction l as [|x l IH]; [done|]. intros _ Hl.
  destruct l as [|y l].
  - apply split_single. apply Hl. by left.
  - change (join sep (x :: y :: l)) with (x ++ String sep (join sep (y :: l))).
    rewrite split_app_sep by (apply Hl; by left).
    f_equal. apply IH; [done|]. intros z Hz. apply Hl. by right.
Qed.

(** X4: the lines the transform keeps survive a round trip: joined with
    newlines and transformed again, they come back unchanged. *)
Theorem X4_raw_data_idempotent (blob_data : string) :
  raw_data (join LF (raw_data blob_data)) = raw_data blob_data.
Proof.
  destruct (raw_data blob_data) as [|x l] eqn:E; [reflexivity|].
  rewrite <- E. unfold raw_data at 1. rewrite split_join.
  - apply filter_all. intros y Hy. unfold raw_data in Hy.
    by apply list_elem_of_filter in Hy as [? _].
  - by rewrite E.
  - intros y Hy. unfold raw_data in Hy.
    apply list_elem_of_filter in Hy as [_ Hy]. by eapply split_no_sep.
Qed.

(** ** References and reads (modules/gcs.py, [get_blob], [get_blob_content]) *)

Lemma get_blob_outcome self b n w :
  let r := get_blob self b n w in
  objects r.2 = objects w ∧ faults r.2 = faults w
  ∧ match validated_names self b n with
    | None => r.1 = Ok None ∧ calls r.2 = calls w
    | Some (tb, tn) =>
        (accepted (faults w) (calls w) [CBucket tb; CBlob tb tn]
         ∧ r.1 = Ok (Some (mkBlob tb tn))
         ∧ calls r.2 = (calls w ++ [CBucket tb; CBlob tb tn])%list)
        ∨ (¬ accepted (faults w) (calls w) [CBucket tb; CBlob tb tn]
           ∧ r.1 = Ok None
           ∧ (∃ p, p `prefix_of` [CBucket tb; CBlob tb tn]
                   ∧ calls r.2 = (calls w ++ p)%list)
           ∧ ∃ e, (ERROR, G_ref_error tb tn e) ∈ new_logs w r.2)
    end.
Proof.
  cbv zeta. unfold validated_names, get_blob, _get_validated_names,
    _get_blob_or_none, issue. run.
  destruct (py_or b _) as [tb|]; [|done].
  destruct (py_or n _) as [tn|]; [|done]. cbn.
  next_fault.
  { split; [done|]. split; [done|]. right.
    split; [intros (? & _); congruence|]. split; [done|].
    split; [exists [CBucket tb]; split; [by eexists|done]|].
    exists e. lists. mem. }
  next_fault.
  { split; [done|]. split; [done|]. right.
    split; [intros (_ & ? & _); congruence|]. split; [done|].
    split; [exists [CBucket tb; CBlob tb tn]; split; [done|by lists]|].
    exists e. lists. mem. }
  split; [done|]. split; [done|]. left. split; [done|]. split; [done|]. by lists.
Qed.

Lemma get_blob_content_outcome self b n enc w :
  let r := get_blob_content self b n enc w in
  objects r.2 = objects w ∧ faults r.2 = faults w
  ∧ (∃ p, calls r.2 = (calls w ++ p)%list ∧ List.filter is_write p = [])
  ∧ match validated_names self b n with
    | None => r.1 = Ok None ∧ calls r.2 = calls w
    | Some (tb, tn) =>
        (∃ stored,
           accepted (faults w) (calls w) [CBucket tb; CBlob tb tn; COpenRead tb tn enc]
           ∧ objects w !! (tb, tn) = Some stored
           ∧ r.1 = Ok (Some (text_of w enc stored))
           ∧ calls r.2
             = (calls w ++ [CBucket tb; CBlob tb tn; COpenRead tb tn enc])%list)
        ∨ ((¬ accepted (faults w) (calls w)
                [CBucket tb; CBlob tb tn; COpenRead tb tn enc]
            ∨ objects w !! (tb, tn) = None)
           ∧ r.1 = Ok None)
    end.
Proof.
  cbv zeta. unfold validated_names, get_blob_content, get_blob,
    _get_validated_names, _get_blob_or_none, open_read, issue. run.
  destruct (py_or b _) as [tb|].
  2:{ split; [done|]. split; [done|]. split; [|done].
      exists []. by rewrite app_nil_r. }
  destruct (py_or n _) as [tn|].
  2:{ split; [done|]. split; [done|]. split; [|done].
      exists []. by rewrite app_nil_r. }
  cbn.
  next_fault.
  { split; [done|]. split; [done|].
    split; [exists [CBucket tb]; done|]. right.
    split; [|done]. left. intros (? & _). congruence. }
  next_fault.
  { split; [done|]. split; [done|].
    split; [exists [CBucket tb; CBlob tb tn]; split; [by lists|done]|]. right.
    split; [|done]. left. intros (_ & ? & _). congruence. }
  next_fault.
  { split; [done|]. split; [done|].
    split; [exists [CBucket tb; CBlob tb tn; COpenRead tb tn enc];
            split; [by lists|done]|]. right.
    split; [|done]. left. intros (_ & _ & ? & _). congruence. }
  destruct (objects w !! (tb, tn)) as [text|] eqn:Hobj; cbn.
  - split; [done|]. split; [done|].
    split; [exists [CBucket tb; CBlob tb tn; COpenRead tb tn enc];
            split; [by lists|done]|]. left.
    exists text. split; [done|]. split; [done|]. split; [done|]. by lists.
  - split; [done|]. split; [done|].
    split; [exists [CBucket tb; CBlob tb tn; COpenRead tb tn enc];
            split; [by lists|done]|]. right. split; [by right|done].
Qed.

(** X5: [get_blob] never raises and never touches the stored objects.  It
    hands out a reference exactly when both names resolve and the two
    reference calls go through, and the reference then carries the
    resolved names; whether the object exists plays no part. *)
Theorem X5_get_blob_reference self b n w :
  let r := get_blob self b n w in
  (r.1 = Ok None ∨ ∃ blob, r.1 = Ok (Some blob))
  ∧ (∀ blob, r.1 = Ok (Some blob)
             ↔ ∃ tb tn, blob = mkBlob tb tn
                        ∧ validated_names self b n = Some (tb, tn)
                        ∧ accepted (faults w) (calls w) [CBucket tb; CBlob tb tn])
  ∧ objects r.2 = objects w.
Proof.
  destruct (get_blob_outcome self b n w) as (Ho & _ & Hcase). cbv zeta in *.
  destruct (validated_names self b n) as [[tb tn]|].
  - destruct Hcase as [(Hacc & Hr & _)|(Hno & Hr & _)].
    + split; [right; by eexists|]. split; [|done]. intros blob. split.
      * intros Hb. exists tb, tn. split; [congruence|done].
      * intros (tb' & tn' & -> & [= -> ->] & _). done.
    + split; [by left|]. split; [|done]. intros blob. split.
      * intros Hb. congruence.
      * intros (tb' & tn' & -> & [= -> ->] & Hacc). done.
  - destruct Hcase as [Hr _]. split; [by left|]. split; [|done].
    intros blob. split; [congruence|]. intros (? & ? & _ & ? & _). done.
Qed.

(** X6: [get_blob_content] never raises, never changes the stored objects
    and never issues a copy or a delete.  It returns text exactly when
    both names resolve, its three calls go through and the object exists,
    and the text is then what the reader opened under the given encoding
    makes of the stored content of that object ([text_of]: the decoding
    and the translation of line ends), not the stored content itself; in
    every other case it returns [None]. *)
Theorem X6_get_blob_content_reads self b n enc w :
  let r := get_blob_content self b n enc w in
  (r.1 = Ok None ∨ ∃ text, r.1 = Ok (Some text))
  ∧ (∀ text, r.1 = Ok (Some text)
             ↔ ∃ tb tn stored,
                 validated_names self b n = Some (tb, tn)
                 ∧ accepted (faults w) (calls w)
                     [CBucket tb; CBlob tb tn; COpenRead tb tn enc]
                 ∧ objects w !! (tb, tn) = Some stored
                 ∧ text = text_of w enc stored)
  ∧ objects r.2 = objects w
  ∧ List.filter is_write (new_calls w r.2) = [].
Proof.
  destruct (get_blob_content_outcome self b n enc w)
    as (Ho & _ & (p & Hp & Hw) & Hcase). cbv zeta in *.
  rewrite (new_calls_app _ _ _ Hp).
  destruct (validated_names self b n) as [[tb tn]|].
  - destruct Hcase as [(stored & Hacc & Hobj & Hr & _)|(Hno & Hr)].
    + split; [right; by eexists|]. split; [|done]. intros text'. split.
      * intros Ht. exists tb, tn, stored. split; [done|]. split; [done|].
        split; [done|]. congruence.
      * intros (tb' & tn' & stored' & [= -> ->] & _ & Hobj' & ->). congruence.
    + split; [by left|]. split; [|done]. intros text'. split.
      * congruence.
      * intros (tb' & tn' & stored' & [= -> ->] & Hacc & Hobj' & _).
        destruct Hno; [done|congruence].
  - destruct Hcase as [Hr _]. split; [by left|]. split; [|done].
    intros text'. split; [congruence|]. intros (? & ? & ? & ? & _). done.
Qed.

Lemma py_or_Some (b : string) (d : option string) :
  b ≠ "" → py_or (Some b) d = Some b.
Proof.
  intros Hb%String.eqb_neq. unfold py_or, truthy. by rewrite Hb.
Qed.

(** X7: arguments override the instance defaults: called with non-empty
    bucket and object arguments, [get_blob], [get_blob_content] and
    [move_blob] behave the same on any two clients, whatever defaults the
    clients were built with. *)
Theorem X7_arguments_override_defaults self self' b n :
  b ≠ "" → n ≠ "" →
  get_blob self (Some b) (Some n) = get_blob self' (Some b) (Some n)
  ∧ (∀ enc, get_blob_content self (Some b) (Some n) enc
            = get_blob_content self' (Some b) (Some n) enc)
  ∧ (∀ tb tn w, tb ≠ "" → tn ≠ "" →
       move_blob self (Some b) (Some n) (Some tb) (Some tn) w
       = move_blob self' (Some b) (Some n) (Some tb) (Some tn) w).
Proof.
  intros Hb Hn.
  assert (get_blob self (Some b) (Some n) = get_blob self' (Some b) (Some n)) as Hg.
  { unfold get_blob, _get_validated_names, _get_blob_or_none.
    by rewrite !py_or_Some. }
  split; [done|]. split.
  - intros enc. unfold get_blob_content. by rewrite Hg.
  - intros tb tn w Htb Htn. unfold move_blob, _get_validated_names.
    rewrite !(py_or_Some b), !(py_or_Some n), !(py_or_Some tb) by done.
    apply String.eqb_neq in Htb, Htn. run. by rewrite ?Htb, ?Htn.
Qed.

Lemma X7_arguments_override_defaults_witness :
  get_blob demo_client (Some "bucket") (Some "x.txt")
  = get_blob bare_client (Some "bucket") (Some "x.txt").
Proof.
  apply (X7_arguments_override_defaults demo_client bare_client "bucket" "x.txt");
    discriminate.
Defined.

(** ** More on relocation (modules/gcs.py, [move_blob]) *)

(** Every way a call of [move_blob] can end. *)
Lemma move_blob_cases self sb sn tb tn w :
  let r := move_blob self sb sn tb tn w in
  ∃ p, calls r.2 = (calls w ++ p)%list
    ∧ ((r.1 = Ok false ∧ objects r.2 = objects w ∧ ∀ b n, CDelete b n ∉ p)
       ∨ ∃ s_b s_n t_b t_n text,
           validated_names self sb sn = Some (s_b, s_n)
           ∧ target_names self tb tn (s_b, s_n) = (t_b, t_n)
           ∧ (t_b, t_n) ≠ (s_b, s_n)
           ∧ objects w !! (s_b, s_n) = Some text
           ∧ p = move_calls s_b s_n t_b t_n
           ∧ ((r.1 = Ok true
               ∧ objects r.2 = delete (s_b, s_n) (<[(t_b, t_n) := text]> (objects w)))
              ∨ (r.1 = Ok false
                 ∧ objects r.2 = <[(t_b, t_n) := text]> (objects w)))).
Proof.
  cbv zeta.
  destruct (validated_names self sb sn) as [[s_b s_n]|] eqn:Hsrc.
  2:{ destruct (move_blob_not_attempted self sb sn tb tn w) as (Hr & Hc & Ho & _);
        [by left|].
      exists []. rewrite app_nil_r. split; [done|]. left.
      split; [done|]. split; [done|]. intros b n. apply not_elem_of_nil. }
  destruct (target_names self tb tn (s_b, s_n)) as [t_b t_n] eqn:Htgt.
  destruct (decide ((t_b, t_n) = (s_b, s_n))) as [Heq|Hne].
  { destruct (move_blob_not_attempted self sb sn tb tn w) as (Hr & Hc & Ho & _).
    { right. exists (s_b, s_n). split; [done|]. congruence. }
    exists []. rewrite app_nil_r. split; [done|]. left.
    split; [done|]. split; [done|]. intros b n. apply not_elem_of_nil. }
  destruct (move_blob_attempt self sb sn tb tn w s_b s_n t_b t_n Hsrc Htgt Hne)
    as (_ & _ & [(Hr & Hc & _ & text & Hobj & Ho)|(Hr & e & _ & Hfail)]).
  - exists (move_calls s_b s_n t_b t_n). split; [done|]. right.
    exists s_b, s_n, t_b, t_n, text. repeat (split; [done|]). by left.
  - destruct Hfail as [(p & _ & Hpre & Hc & Ho)|(Hc & _ & _ & text & Hobj & Ho)].
    + exists p. split; [done|]. left. split; [done|]. split; [done|].
      intros b n Hin. destruct Hpre as [k Hk].
      assert (CDelete b n ∈ take 4 (move_calls s_b s_n t_b t_n)) as Hin4.
      { rewrite Hk. apply elem_of_app. by left. }
      cbn in Hin4.
      repeat (apply elem_of_cons in Hin4 as [Hin4|Hin4]; [discriminate Hin4|]).
      by apply elem_of_nil in Hin4.
    + exists (move_calls s_b s_n t_b t_n). split; [done|]. right.
      exists s_b, s_n, t_b, t_n, text. repeat (split; [done|]). by right.
Qed.

(** X8: whatever happens, [move_blob] leaves every object other than its
    resolved source and target as it was, and it never loses the content
    of the source: afterwards that content is still at the source or it is
    at the target.  The delete call is issued only once the copy has put
    the content at the target. *)
Theorem X8_move_blob_frame_no_loss self sb sn tb tn w :
  let r := move_blob self sb sn tb tn w in
  (∀ k, (∀ source, validated_names self sb sn = Some source →
                   k ≠ source ∧ k ≠ target_names self tb tn source) →
        objects r.2 !! k = objects w !! k)
  ∧ (∀ source text,
       validated_names self sb sn = Some source →
       objects w !! source = Some text →
       objects r.2 !! source = Some text
       ∨ objects r.2 !! target_names self tb tn source = Some text)
  ∧ (∀ b n, CDelete b n ∈ new_calls w r.2 →
       ∃ source text, validated_names self sb sn = Some source
                      ∧ objects w !! source = Some text
                      ∧ objects r.2 !! target_names self tb tn source = Some text).
Proof.
  destruct (move_blob_cases self sb sn tb tn w) as (p & Hp & Hcase).
  cbv zeta in *. rewrite (new_calls_app _ _ _ Hp).
  destruct Hcase as [(_ & Ho & Hdel)|Hcase].
  - rewrite Ho. split; [done|]. split; [by left|].
    intros b n Hin. by apply Hdel in Hin.
  - destruct Hcase as (s_b & s_n & t_b & t_n & text & Hsrc & Htgt & Hne & Hobj & _ & Hres).
    assert (∀ k, k ≠ (s_b, s_n) → k ≠ (t_b, t_n) →
                 objects (move_blob self sb sn tb tn w).2 !! k = objects w !! k)
      as Hframe.
    { intros k Hk1 Hk2. destruct Hres as [(_ & ->)|(_ & ->)].
      - rewrite lookup_delete_ne by done. by rewrite lookup_insert_ne.
      - by rewrite lookup_insert_ne. }
    assert (objects (move_blob self sb sn tb tn w).2 !! (t_b, t_n) = Some text)
      as Htarget.
    { destruct Hres as [(_ & ->)|(_ & ->)].
      - rewrite lookup_delete_ne by done. apply lookup_insert_eq.
      - apply lookup_insert_eq. }
    split.
    { intros k Hk. destruct (Hk _ Hsrc) as [Hk1 Hk2]. rewrite Htgt in Hk2.
      by apply Hframe. }
    split.
    { intros source text' Hs Ho'. rewrite Hsrc in Hs. injection Hs as <-.
      rewrite Htgt. right. congruence. }
    intros b n _. exists (s_b, s_n), text. rewrite Htgt. done.
Qed.

(** The reader is the one of the world [move_blob] started in. *)
Lemma move_blob_text_of self sb sn tb tn w :
  text_of (move_blob self sb sn tb tn w).2 = text_of w.
Proof.
  destruct w as [o f c l d].
  unfold move_blob, _get_validated_names, copy_blob, delete_blob, issue. run.
  destruct (py_or sb _) as [b|]; [|done].
  destruct (py_or sn _) as [n|]; [|done].
  cbn. destruct (_ && _); cbn; [done|].
  repeat (next_fault_of f; [done|]).
  destruct (o !! (b, n)) as [text|] eqn:Hobj; cbn; [|done].
  next_fault_of f; [done|].
  destruct (<[_:=_]> o !! (b, n)); cbn; done.
Qed.

(** X9: a relocation that reports success can be read back: a client
    built for the target reads, when its calls go through, what the
    reader makes of the very content the source held ([text_of] under the
    encoding asked for, applied to the stored content), and a client
    built for the source fetches nothing any more. *)
Theorem X9_move_then_fetch self sb sn tb tn w source enc :
  (move_blob self sb sn tb tn w).1 = Ok true →
  validated_names self sb sn = Some source →
  let w' := (move_blob self sb sn tb tn w).2 in
  let target := target_names self tb tn source in
  is_Some (objects w !! source)
  ∧ (accepted (faults w') (calls w')
       [CBucket target.1; CBlob target.1 target.2; COpenRead target.1 target.2 enc] →
     (get_blob_content (mkGCSClient (Some target.1) (Some target.2)) None None enc w').1
     = Ok (text_of w enc <$> objects w !! source))
  ∧ (get_blob_content (mkGCSClient (Some source.1) (Some source.2)) None None enc w').1
    = Ok None.
Proof.
  intros Htrue Hsource. cbv zeta.
  destruct (move_blob_cases self sb sn tb tn w) as (p & _ & Hcase). cbv zeta in Hcase.
  destruct Hcase as [(Hr & _)|Hcase]; [congruence|].
  destruct Hcase as (s_b & s_n & t_b & t_n & text & Hsrc & Htgt & Hne & Hobj & _ & Hres).
  rewrite Hsource in Hsrc. injection Hsrc as ->. rewrite Htgt. cbn [fst snd].
  destruct Hres as [(_ & Ho)|(Hr & _)]; [|congruence].
  pose proof (move_blob_text_of self sb sn tb tn w) as Hreader.
  set (w' := (move_blob self sb sn tb tn w).2) in *.
  split; [by rewrite Hobj|]. split.
  - intros Hacc.
    destruct (get_blob_content_outcome (mkGCSClient (Some t_b) (Some t_n))
                None None enc w') as (_ & _ & _ & Hcase).
    cbn in Hcase.
    destruct Hcase as [(text' & _ & Hobj' & Hr & _)|([Hno|Hnone] & _)].
    + rewrite Hr, Hobj, Hreader. cbn. do 3 f_equal.
      rewrite Ho in Hobj'. rewrite lookup_delete_ne in Hobj' by done.
      rewrite lookup_insert_eq in Hobj'. congruence.
    + by destruct Hno.
    + rewrite Ho in Hnone. rewrite lookup_delete_ne in Hnone by done.
      by rewrite lookup_insert_eq in Hnone.
  - destruct (get_blob_content_outcome (mkGCSClient (Some s_b) (Some s_n))
                None None enc w') as (_ & _ & _ & Hcase).
    cbn in Hcase.
    destruct Hcase as [(text' & _ & Hobj' & _)|(_ & Hr)]; [|done].
    rewrite Ho in Hobj'. by rewrite lookup_delete_eq in Hobj'.
Qed.

Lemma X9_move_then_fetch_witness :
  (move_blob demo_client None None None (Some demo_target) demo_world).1 = Ok true
  ∧ (get_blob_content (mkGCSClient (Some SOURCE_BUCKET) (Some "raw_data/a.txt"))
       None None "utf-8"
       (move_blob demo_client None None None (Some demo_target) demo_world).2).1
    = Ok None.
Proof.
  assert ((move_blob demo_client None None None (Some demo_target) demo_world).1
          = Ok true) as Htrue by reflexivity.
  split; [exact Htrue|].
  destruct (X9_move_then_fetch demo_client None None None (Some demo_target)
              demo_world (SOURCE_BUCKET, "raw_data/a.txt") "utf-8" Htrue eq_refl)
    as (_ & _ & H).
  exact H.
Defined.

(** X10: when the resolved source object does not exist, [move_blob]
    reports failure, changes no object and issues no delete call,
    whatever the service does with the other calls. *)
Theorem X10_move_blob_missing_source self sb sn tb tn w source :
  validated_names self sb sn = Some source →
  objects w !! source = None →
  let r := move_blob self sb sn tb tn w in
  r.1 = Ok false
  ∧ objects r.2 = objects w
  ∧ ∀ b n, CDelete b n ∉ new_calls w r.2.
Proof.
  intros Hsource Hnone. cbv zeta.
  destruct (move_blob_cases self sb sn tb tn w) as (p & Hp & Hcase). cbv zeta in Hcase.
  rewrite (new_calls_app _ _ _ Hp).
  destruct Hcase as [?|Hcase]; [done|].
  destruct Hcase as (s_b & s_n & t_b & t_n & text & Hsrc & _ & _ & Hobj & _).
  congruence.
Qed.

Lemma X10_move_blob_missing_source_witness :
  objects empty_world !! (SOURCE_BUCKET, "raw_data/a.txt") = None
  ∧ (move_blob demo_client None None None (Some demo_target) empty_world).1 = Ok false.
Proof.
  split; [reflexivity|].
  destruct (X10_move_blob_missing_source demo_client None None None (Some demo_target)
              empty_world (SOURCE_BUCKET, "raw_data/a.txt") eq_refl eq_refl) as (H & _).
  exact H.
Defined.

(** ** The handler, step by step (modules/handler.py) *)

Lemma accepted_app f (h a b : list Call) :
  accepted f h (a ++ b) ↔ accepted f h a ∧ accepted f (h ++ a) b.
Proof.
  revert h. induction a as [|c a IH]; intros h; cbn.
  - rewrite app_nil_r. tauto.
  - rewrite IH. rewrite <- app_assoc. cbn. tauto.
Qed.



(** The content fetch when the service lets it through and holds the object. *)
Lemma content_fetch_fetched (b n text : string) (w : World) :
  accepted (faults w) (calls w) (fetch_calls b n) →
  objects w !! (b, n) = Some text →
  ∃ w1 ls, content_fetch b n w = (Ok (Some (text_of w "utf-8" text)), w1)
        ∧ calls w1 = (calls w ++ fetch_calls b n)%list
        ∧ logs w1 = (logs w ++ ls)%list
        ∧ faults w1 = faults w ∧ objects w1 = objects w.
Proof.
  intros (F1 & F2 & F3 & F4 & _) Hobj.
  unfold_adapter. run.
  rewrite F1. cbn. rewrite F2. cbn. rewrite F3. cbn. rewrite F4. cbn.
  rewrite Hobj. cbn. do 2 eexists. split; [reflexivity|].
  split; [cbn -[app]; by rewrite <- !app_assoc|].
  split; [cbn -[app]; rewrite <- !app_assoc; reflexivity|]. done.
Qed.

(** The relocation when the service lets it through and holds the source. *)
Lemma move_blob_moved self sb sn tb tn w s_b s_n t_b t_n text :
  validated_names self sb sn = Some (s_b, s_n) →
  target_names self tb tn (s_b, s_n) = (t_b, t_n) →
  (t_b, t_n) ≠ (s_b, s_n) →
  accepted (faults w) (calls w) (move_calls s_b s_n t_b t_n) →
  objects w !! (s_b, s_n) = Some text →
  (move_blob self sb sn tb tn w).1 = Ok true
  ∧ calls (move_blob self sb sn tb tn w).2
    = (calls w ++ move_calls s_b s_n t_b t_n)%list
  ∧ objects (move_blob self sb sn tb tn w).2
    = delete (s_b, s_n) (<[(t_b, t_n) := text]> (objects w))
  ∧ ∃ l, logs (move_blob self sb sn tb tn w).2 = (l ++ [(INFO, G_move_ok)])%list.
Proof.
  unfold validated_names, target_names.
  intros Hsrc Htgt Hne (F1 & F2 & F3 & F4 & F5 & _) Hobj.
  unfold move_blob, _get_validated_names, copy_blob, delete_blob, issue. run.
  destruct (py_or sb _) as [b|]; [|done].
  destruct (py_or sn _) as [n|]; [|done].
  injection Hsrc as -> ->. cbn in Htgt. injection Htgt as Hb Hn.
  cbn. rewrite Hb, Hn. pose proof Hne as Hg. apply guard_false in Hg. rewrite Hg. cbn.
  rewrite F1. cbn. rewrite F2. cbn. rewrite F3. cbn. rewrite F4. cbn.
  rewrite Hobj. cbn. rewrite F5. cbn.
  rewrite lookup_insert_ne by done. rewrite Hobj. cbn.
  split; [done|]. split; [by lists|]. split; [done|]. by eexists.
Qed.

Lemma content_fetch_outcome (b n : string) (w : World) :
  let r := content_fetch b n w in
  objects r.2 = objects w ∧ faults r.2 = faults w
  ∧ ∃ p, calls r.2 = (calls w ++ CClient :: p)%list ∧ List.filter is_write p = [].
Proof.
  cbv zeta. unfold content_fetch, GCSClient_init, issue.
  unfold mbind, M_bind, mret, M_ret, log. cbn -[get_blob_content].
  destruct (faults w (calls w) CClient); cbn -[get_blob_content].
  { split; [done|]. split; [done|]. by exists []. }
  match goal with
  | |- context [get_blob_content ?c None None ?enc ?w1] =>
      destruct (get_blob_content_outcome c None None enc w1)
        as (Ho & Hf & (p & Hp & Hw) & _)
  end.
  cbv zeta in *. rewrite Ho, Hf, Hp. split; [done|]. split; [done|].
  exists p. cbn -[app]. by rewrite <- app_assoc.
Qed.

(** What [processing] can do to the world: its first call builds the
    client, and of the stored objects only the notification's object and
    its target can change, the content of the former never being lost. *)
Lemma processing_frame (b n : string) (w0 : World) :
  let r := processing b n w0 in
  let target := (b, TARGET_FOLDER ++ "/" ++ blob_path n) in
  (∃ p, calls r.2 = (calls w0 ++ CClient :: p)%list)
  ∧ (∀ k, k ≠ (b, n) → k ≠ target → objects r.2 !! k = objects w0 !! k)
  ∧ (∀ text, objects w0 !! (b, n) = Some text →
             objects r.2 !! (b, n) = Some text ∨ objects r.2 !! target = Some text).
Proof.
  cbv zeta. rewrite processing_unfold.
  destruct (content_fetch_outcome b n w0) as (Ho & _ & (p & Hp & _)). cbv zeta in *.
  destruct (content_fetch b n w0) as [[[text|]|e] w1]; cbn [fst snd] in *.
  2,3: (split; [by exists p|]; cbn; rewrite ?Ho; split; [done|by left]).
  cbv zeta.
  match goal with
  | |- context [move_blob ?c None None ?tb ?tn ?w2] =>
      destruct (move_blob_cases c None None tb tn w2) as (q & Hq & Hcase);
      set (m := move_blob c None None tb tn w2) in *
  end.
  cbv zeta in *. cbn [calls objects add_log] in Hq, Hcase.
  assert (∃ p', calls m.2 = (calls w0 ++ CClient :: p')%list) as Hcalls.
  { exists (p ++ q)%list. rewrite Hq, Hp. by rewrite <- app_assoc. }
  assert ((∀ k, k ≠ (b, n) → k ≠ (b, TARGET_FOLDER ++ "/" ++ blob_path n) →
                objects m.2 !! k = objects w0 !! k)
          ∧ (∀ text', objects w0 !! (b, n) = Some text' →
                      objects m.2 !! (b, n) = Some text'
                      ∨ objects m.2 !! (b, TARGET_FOLDER ++ "/" ++ blob_path n)
                        = Some text')) as Hobjs.
  { destruct Hcase as [(_ & Hom & _)|Hcase].
    { rewrite Hom, Ho. split; [done|by left]. }
    destruct Hcase as (s_b & s_n & t_b & t_n & text' & Hsrc & Htgt & Hne & Hobj & _ & Hres).
    cbn in Hsrc. injection Hsrc as <- <-.
    unfold target_names in Htgt. cbn [fst snd self_bucket_name] in Htgt.
    rewrite py_or_str_default in Htgt. unfold py_or_str in Htgt.
    rewrite target_nonempty in Htgt. injection Htgt as <- <-.
    rewrite Ho in Hobj.
    destruct Hres as [(_ & ->)|(_ & ->)]; rewrite Ho.
    - split.
      + intros k Hk1 Hk2. rewrite lookup_delete_ne by done.
        by rewrite lookup_insert_ne.
      + intros t Ht. right. rewrite lookup_delete_ne by done.
        rewrite lookup_insert_eq. congruence.
    - split.
      + intros k Hk1 Hk2. by rewrite lookup_insert_ne.
      + intros t Ht. right. rewrite lookup_insert_eq. congruence. }
  destruct m as [[[|]|e] w3]; cbn [fst snd calls objects add_log] in *; done.
Qed.

(** The two ways the handler can go for a payload whose name is a string. *)
Lemma handler_cases (data : Payload) (w : World) (n : string) :
  name_of data = Some n →
  (¬ (dict_get data "bucket" (PyStr "") = PyStr SOURCE_BUCKET
      ∧ folder_path n = SOURCE_FOLDER)
   ∧ (handle_gcs_event_data data w).1 = Ok ()
   ∧ no_contact w (handle_gcs_event_data data w).2)
  ∨ (dict_get data "bucket" (PyStr "") = PyStr SOURCE_BUCKET
     ∧ folder_path n = SOURCE_FOLDER
     ∧ ∃ w0, handle_gcs_event_data data w = processing SOURCE_BUCKET n w0
             ∧ logs w0 = (logs w ++ validated_logs n)%list
             ∧ calls w0 = calls w ∧ faults w0 = faults w ∧ objects w0 = objects w).
Proof.
  intros Hn.
  destruct (equal_str (dict_get data "bucket" (PyStr "")) SOURCE_BUCKET)
    as [b|] eqn:Hb.
  2:{ left. split.
      - intros [Hb' _]. apply equal_str_None in Hb. done.
      - apply (handler_filtered data w n Hn). by left. }
  apply equal_str_Some in Hb as [Hb _].
  destruct (String.eqb_spec (folder_path n) SOURCE_FOLDER) as [Hf|Hf].
  2:{ left. split; [by intros [_ ?]|].
      apply (handler_filtered data w n Hn). by right. }
  right. split; [done|]. split; [done|].
  by apply handler_validated_world.
Qed.

(** X11: for every payload whose name is a string and every behaviour of
    the service, the handler changes no stored object other than the
    notification's object in [SOURCE_BUCKET] and its target under
    [TARGET_FOLDER], and it never loses the content of the notification's
    object: afterwards that content is at the source or at the target. *)
Theorem X11_handler_frame_no_loss (data : Payload) (w : World) (n : string) :
  name_of data = Some n →
  let r := handle_gcs_event_data data w in
  let target := (SOURCE_BUCKET, TARGET_FOLDER ++ "/" ++ blob_path n) in
  (∀ k, k ≠ (SOURCE_BUCKET, n) → k ≠ target → objects r.2 !! k = objects w !! k)
  ∧ (∀ text, objects w !! (SOURCE_BUCKET, n) = Some text →
             objects r.2 !! (SOURCE_BUCKET, n) = Some text
             ∨ objects r.2 !! target = Some text).
Proof.
  intros Hn. cbv zeta.
  destruct (handler_cases data w n Hn)
    as [(_ & _ & _ & Ho & _)|(_ & _ & w0 & -> & _ & _ & _ & Ho0)].
  - rewrite Ho. split; [done|by left].
  - destruct (processing_frame SOURCE_BUCKET n w0) as (_ & H1 & H2).
    cbv zeta in *. rewrite Ho0 in H1, H2. done.
Qed.

Lemma X11_handler_frame_no_loss_witness :
  name_of demo_event = Some "raw_data/a.txt"
  ∧ (objects (handle_gcs_event_data demo_event delete_refused_world).2
       !! (SOURCE_BUCKET, "raw_data/a.txt") = Some sample_content
     ∨ objects (handle_gcs_event_data demo_event delete_refused_world).2
         !! (SOURCE_BUCKET, TARGET_FOLDER ++ "/" ++ blob_path "raw_data/a.txt")
       = Some sample_content).
Proof.
  split; [reflexivity|].
  destruct (X11_handler_frame_no_loss demo_event delete_refused_world
              "raw_data/a.txt" eq_refl) as [_ H].
  apply H. reflexivity.
Defined.

(** X12: storage is contacted exactly for the notifications that pass both
    filters: for a payload whose name is a string the handler issues a
    call if and only if the bucket is [SOURCE_BUCKET] and the folder path
    is [SOURCE_FOLDER], and its first call then builds the client. *)
Theorem X12_contact_iff_qualifies (data : Payload) (w : World) (n : string) :
  name_of data = Some n →
  let r := handle_gcs_event_data data w in
  (new_calls w r.2 ≠ []
   ↔ dict_get data "bucket" (PyStr "") = PyStr SOURCE_BUCKET
     ∧ folder_path n = SOURCE_FOLDER)
  ∧ (new_calls w r.2 = [] ∨ ∃ p, new_calls w r.2 = CClient :: p).
Proof.
  intros Hn. cbv zeta.
  destruct (handler_cases data w n Hn)
    as [(Hq & _ & Hc & _)|(Hb & Hf & w0 & -> & _ & Hc0 & _)].
  - assert (new_calls w (handle_gcs_event_data data w).2 = []) as ->.
    { apply new_calls_app. by rewrite Hc, app_nil_r. }
    split; [|by left]. split; [done|]. intros H. by apply Hq in H.
  - destruct (processing_frame SOURCE_BUCKET n w0) as ((p & Hp) & _).
    cbv zeta in Hp. rewrite Hc0 in Hp. rewrite (new_calls_app _ _ _ Hp).
    split; [|right; by exists p]. split; done.
Qed.

Lemma X12_contact_iff_qualifies_witness :
  name_of other_event = Some "raw_data/a.txt"
  ∧ (new_calls demo_world (handle_gcs_event_data other_event demo_world).2 = []
     ∨ ∃ p, new_calls demo_world (handle_gcs_event_data other_event demo_world).2
            = CClient :: p).
Proof.
  split; [reflexivity|].
  destruct (X12_contact_iff_qualifies other_event demo_world "raw_data/a.txt" eq_refl)
    as [_ H].
  exact H.
Defined.

(** A validated notification whose content was fetched: what remains is
    one call of [move_blob] and the closing records. *)
Lemma handler_fetched (data : Payload) (w : World) (n text : string) :
  dict_get data "bucket" (PyStr "") = PyStr SOURCE_BUCKET →
  name_of data = Some n →
  folder_path n = SOURCE_FOLDER →
  accepted (faults w) (calls w) (fetch_calls SOURCE_BUCKET n) →
  objects w !! (SOURCE_BUCKET, n) = Some text →
  let target := TARGET_FOLDER ++ "/" ++ blob_path n in
  ∃ w2,
    handle_gcs_event_data data w
    = match move_blob (mkGCSClient (Some SOURCE_BUCKET) (Some n)) None None
              (Some SOURCE_BUCKET) (Some target) w2 with
      | (Ok true, w3) => (Ok (), add_log INFO H_finished w3)
      | (Ok false, w3) =>
          (Ok (), add_log INFO H_finished (add_log ERROR (H_move_failed target) w3))
      | (Raise e, w3) => (Raise e, w3)
      end
    ∧ calls w2 = (calls w ++ fetch_calls SOURCE_BUCKET n)%list
    ∧ faults w2 = faults w ∧ objects w2 = objects w.
Proof.
  intros Hb Hn Hf Hacc Hobj. cbv zeta.
  destruct (handler_validated_world data w n Hb Hn Hf)
    as (w0 & -> & _ & Hc0 & Hf0 & Ho0).
  rewrite <- Hc0, <- Hf0 in Hacc. rewrite <- Ho0 in Hobj.
  destruct (content_fetch_fetched SOURCE_BUCKET n text w0 Hacc Hobj)
    as (w1 & ls & Hfetch & Hc1 & _ & Hf1 & Ho1).
  rewrite processing_unfold, Hfetch. cbv zeta.
  eexists. split; [reflexivity|]. cbn [calls faults objects add_log].
  rewrite Hc1, Hf1, Ho1, Hc0, Hf0, Ho0. done.
Qed.

Lemma handler_move_names (n : string) :
  folder_path n = SOURCE_FOLDER →
  let self := mkGCSClient (Some SOURCE_BUCKET) (Some n) in
  let target := TARGET_FOLDER ++ "/" ++ blob_path n in
  validated_names self None None = Some (SOURCE_BUCKET, n)
  ∧ target_names self (Some SOURCE_BUCKET) (Some target) (SOURCE_BUCKET, n)
    = (SOURCE_BUCKET, target)
  ∧ (SOURCE_BUCKET, target) ≠ (SOURCE_BUCKET, n).
Proof.
  intros Hf. cbv zeta. split; [reflexivity|]. split; [reflexivity|].
  intros [= Heq]. pose proof (target_differs n Hf) as Hg.
  apply String.eqb_neq in Hg. by apply Hg.
Qed.

Lemma handler_relocates (data : Payload) (w : World) (n text : string) :
  dict_get data "bucket" (PyStr "") = PyStr SOURCE_BUCKET →
  name_of data = Some n →
  folder_path n = SOURCE_FOLDER →
  let target := TARGET_FOLDER ++ "/" ++ blob_path n in
  accepted (faults w) (calls w)
    (fetch_calls SOURCE_BUCKET n ++ move_calls SOURCE_BUCKET n SOURCE_BUCKET target) →
  objects w !! (SOURCE_BUCKET, n) = Some text →
  let r := handle_gcs_event_data data w in
  r.1 = Ok ()
  ∧ new_calls w r.2
    = (fetch_calls SOURCE_BUCKET n
       ++ move_calls SOURCE_BUCKET n SOURCE_BUCKET target)%list
  ∧ objects r.2 !! (SOURCE_BUCKET, n) = None
  ∧ objects r.2 !! (SOURCE_BUCKET, target) = Some text
  ∧ ∃ l, logs r.2 = (l ++ [(INFO, G_move_ok); (INFO, H_finished)])%list.
Proof.
  intros Hb Hn Hf target [Hacc1 Hacc2]%accepted_app Hobj. cbv zeta.
  destruct (handler_fetched data w n text Hb Hn Hf Hacc1 Hobj)
    as (w2 & -> & Hc2 & Hf2 & Ho2).
  destruct (handler_move_names n Hf) as (Hsrc & Htgt & Hne). cbv zeta in *.
  rewrite <- Hf2, <- Hc2 in Hacc2. rewrite <- Ho2 in Hobj.
  destruct (move_blob_moved _ _ _ _ _ w2 _ _ _ _ text Hsrc Htgt Hne Hacc2 Hobj)
    as (Hr & Hc & Ho & (l & Hl)).
  fold target in Hr, Hc, Ho, Hl |- *.
  destruct (move_blob _ _ _ _ _ w2) as [[[|]|e] w3]; cbn [fst snd] in *; try done.
  split; [done|]. cbn [fst snd calls objects logs add_log].
  split. { apply new_calls_app. cbn [fst snd calls add_log].
           rewrite Hc, Hc2. by rewrite <- app_assoc. }
  rewrite Ho, Ho2.
  split; [apply lookup_delete_eq|].
  split; [rewrite lookup_delete_ne by done; apply lookup_insert_eq|].
  exists l. rewrite Hl. by rewrite <- app_assoc.
Qed.

(** X13: the whole workflow, when the service lets every call through: for
    a qualifying notification whose object exists, the handler returns
    normally after exactly the four calls of the fetch and the five of the
    relocation; the object is gone from the source and its content is at
    [TARGET_FOLDER/<file name>] in the same bucket; the log ends with the
    success record of the move and the closing record. *)
Theorem X13_handler_relocates (data : Payload) (w : World) (n text : string) :
  dict_get data "bucket" (PyStr "") = PyStr SOURCE_BUCKET →
  name_of data = Some n →
  folder_path n = SOURCE_FOLDER →
  let target := TARGET_FOLDER ++ "/" ++ blob_path n in
  accepted (faults w) (calls w)
    (fetch_calls SOURCE_BUCKET n ++ move_calls SOURCE_BUCKET n SOURCE_BUCKET target) →
  objects w !! (SOURCE_BUCKET, n) = Some text →
  let r := handle_gcs_event_data data w in
  r.1 = Ok ()
  ∧ new_calls w r.2
    = (fetch_calls SOURCE_BUCKET n
       ++ move_calls SOURCE_BUCKET n SOURCE_BUCKET target)%list
  ∧ objects r.2 !! (SOURCE_BUCKET, n) = None
  ∧ objects r.2 !! (SOURCE_BUCKET, target) = Some text
  ∧ ∃ l, logs r.2 = (l ++ [(INFO, G_move_ok); (INFO, H_finished)])%list.
Proof. apply handler_relocates. Qed.

Lemma X13_handler_relocates_witness :
  objects demo_world !! (SOURCE_BUCKET, "raw_data/a.txt") = Some sample_content
  ∧ (handle_gcs_event_data demo_event demo_world).1 = Ok ()
  ∧ objects (handle_gcs_event_data demo_event demo_world).2
      !! (SOURCE_BUCKET, "raw_data/a.txt") = None.
Proof.
  split; [reflexivity|].
  destruct (X13_handler_relocates demo_event demo_world "raw_data/a.txt" sample_content)
    as (H1 & _ & H3 & _).
  - reflexivity.
  - reflexivity.
  - reflexivity.
  - cbn. repeat split.
  - reflexivity.
  - exact (conj H1 H3).
Defined.

Lemma handler_partial_relocation
    (data : Payload) (w : World) (n text : string) (e : Exn) :
  dict_get data "bucket" (PyStr "") = PyStr SOURCE_BUCKET →
  name_of data = Some n →
  folder_path n = SOURCE_FOLDER →
  let target := TARGET_FOLDER ++ "/" ++ blob_path n in
  accepted (faults w) (calls w)
    (fetch_calls SOURCE_BUCKET n
     ++ take 4 (move_calls SOURCE_BUCKET n SOURCE_BUCKET target)) →
  faults w (calls w ++ fetch_calls SOURCE_BUCKET n
            ++ take 4 (move_calls SOURCE_BUCKET n SOURCE_BUCKET target))%list
    (CDelete SOURCE_BUCKET n) = Some e →
  objects w !! (SOURCE_BUCKET, n) = Some text →
  let r := handle_gcs_event_data data w in
  r.1 = Ok ()
  ∧ objects r.2 !! (SOURCE_BUCKET, n) = Some text
  ∧ objects r.2 !! (SOURCE_BUCKET, target) = Some text
  ∧ new_calls w r.2
    = (fetch_calls SOURCE_BUCKET n
       ++ move_calls SOURCE_BUCKET n SOURCE_BUCKET target)%list
  ∧ ∃ l, logs r.2 = (l ++ [(ERROR, H_move_failed target); (INFO, H_finished)])%list.
Proof.
  intros Hb Hn Hf target [Hacc1 Hacc2]%accepted_app Hdel Hobj. cbv zeta.
  destruct (handler_fetched data w n text Hb Hn Hf Hacc1 Hobj)
    as (w2 & -> & Hc2 & Hf2 & Ho2).
  destruct (handler_move_names n Hf) as (Hsrc & Htgt & Hne). cbv zeta in *.
  rewrite app_assoc in Hdel.
  rewrite <- Hf2, <- Hc2 in Hacc2, Hdel. rewrite <- Ho2 in Hobj.
  destruct (move_blob_copied_not_deleted _ _ _ _ _ w2 _ _ _ _ text e
              Hsrc Htgt Hne Hacc2 Hobj Hdel) as (Hr & Hc & Ho & _).
  fold target in Hr, Hc, Ho |- *.
  destruct (move_blob _ _ _ _ _ w2) as [[[|]|e'] w3]; cbn [fst snd] in *; try done.
  split; [done|]. cbn [fst snd calls objects logs add_log].
  rewrite Ho, Ho2. rewrite Ho2 in Hobj.
  split; [rewrite lookup_insert_ne by exact Hne; exact Hobj|].
  split; [apply lookup_insert_eq|].
  split. { apply new_calls_app. cbn [fst snd calls add_log].
           rewrite Hc, Hc2. by rewrite <- app_assoc. }
  exists (logs w3). by rewrite <- app_assoc.
Qed.

(** X14: a partial relocation goes unnoticed by the caller: when the copy
    goes through and the service then rejects the delete, the handler
    still returns normally; the content is now at both places, and the log
    ends with the handler's error record for the move and the closing
    record. *)
Theorem X14_handler_partial_relocation
    (data : Payload) (w : World) (n text : string) (e : Exn) :
  dict_get data "bucket" (PyStr "") = PyStr SOURCE_BUCKET →
  name_of data = Some n →
  folder_path n = SOURCE_FOLDER →
  let target := TARGET_FOLDER ++ "/" ++ blob_path n in
  accepted (faults w) (calls w)
    (fetch_calls SOURCE_BUCKET n
     ++ take 4 (move_calls SOURCE_BUCKET n SOURCE_BUCKET target)) →
  faults w (calls w ++ fetch_calls SOURCE_BUCKET n
            ++ take 4 (move_calls SOURCE_BUCKET n SOURCE_BUCKET target))%list
    (CDelete SOURCE_BUCKET n) = Some e →
  objects w !! (SOURCE_BUCKET, n) = Some text →
  let r := handle_gcs_event_data data w in
  r.1 = Ok ()
  ∧ objects r.2 !! (SOURCE_BUCKET, n) = Some text
  ∧ objects r.2 !! (SOURCE_BUCKET, target) = Some text
  ∧ new_calls w r.2
    = (fetch_calls SOURCE_BUCKET n
       ++ move_calls SOURCE_BUCKET n SOURCE_BUCKET target)%list
  ∧ ∃ l, logs r.2 = (l ++ [(ERROR, H_move_failed target); (INFO, H_finished)])%list.
Proof. apply handler_partial_relocation. Qed.

Lemma X14_handler_partial_relocation_witness :
  (handle_gcs_event_data demo_event delete_refused_world).1 = Ok ()
  ∧ objects (handle_gcs_event_data demo_event delete_refused_world).2
      !! (SOURCE_BUCKET, "raw_data/a.txt") = Some sample_content
  ∧ objects (handle_gcs_event_data demo_event delete_refused_world).2
      !! (SOURCE_BUCKET, TARGET_FOLDER ++ "/" ++ blob_path "raw_data/a.txt")
    = Some sample_content.
Proof.
  destruct (X14_handler_partial_relocation demo_event delete_refused_world
              "raw_data/a.txt" sample_content delete_refused)
    as (H1 & H2 & H3 & _).
  - reflexivity.
  - reflexivity.
  - reflexivity.
  - vm_compute. repeat split.
  - reflexivity.
  - reflexivity.
  - exact (conj H1 (conj H2 H3)).
Defined.

(** ** The entry point (main.py) *)

(** A name that is not a string never reaches the storage library: the
    handler raises where it splits the name, before it logs anything, or,
    for a list or a dict that does not hold the slash, it returns at a
    filter. *)
Lemma handler_non_string (data : Payload) (w : World) :
  name_of data = None →
  let r := handle_gcs_event_data data w in
  match dict_get data "name" (PyStr "") with
  | PyList l =>
      if existsb is_slash l then r = (Raise AttributeError, w)
      else r.1 = Ok () ∧ no_contact w r.2
  | PyDict d =>
      if existsb (λ kv, String.eqb kv.1 "/") d then r = (Raise AttributeError, w)
      else r.1 = Ok () ∧ no_contact w r.2
  | _ => r = (Raise TypeError, w)
  end.
Proof.
  unfold name_of. intros Hn. cbv zeta. unfold handle_gcs_event_data. cbv zeta.
  unfold mbind, M_bind. cbn beta.
  rewrite !name_parts_other by (intros s Hs; by rewrite Hs in Hn).
  destruct (dict_get data "name" (PyStr "")) as [| | | |s|l|d]; try done.
  - destruct (existsb _ l); [done|]. unfold log. cbn.
    destruct (equal_str _ _); cbn; done.
  - destruct (existsb _ d); [done|]. unfold log. cbn.
    destruct (equal_str _ _); cbn; done.
Qed.

Lemma data_ingest_process_unfold (data : Payload) (w : World) :
  data_ingest_process data w
  = match handle_gcs_event_data data (add_log INFO M_invoked w) with
    | (Ok _, w') => (Ok (), add_log INFO M_complete w')
    | (Raise e, w') => (Raise e, w')
    end.
Proof.
  unfold data_ingest_process. unfold mbind, M_bind, log.
  by destruct (handle_gcs_event_data data _) as [[[]|e] w'].
Qed.

Lemma emitted_app (threshold : Level) (l1 l2 : list (Level * LogMsg)) :
  emitted threshold (l1 ++ l2) = (emitted threshold l1 ++ emitted threshold l2)%list.
Proof. apply List.filter_app. Qed.

(** X15: the entry point passes the handler's outcome on.  The log holds
    the records handed to the logging module, whatever level the root
    logger is set to.  When the handler returns, the completion record is
    the last of them.  When it raises, the exception leaves the entry
    point and no completion record follows: the records of the invocation
    are its opening record and, if the notification had passed the
    filters, the three of the validation (received, folder check,
    validated), of which a logger set to [INFO] writes out all but the
    folder check.  A payload whose name is not a string never reaches the
    storage library: [None], a boolean or a number raises [TypeError], a
    list holding the string ["/"] or a dict with the key ["/"] raises
    [AttributeError], and any other list or dict is filtered out and the
    entry point returns. *)
Theorem X15_entry_point (data : Payload) (w : World) :
  let r := data_ingest_process data w in
  (r.1 = Ok () → last (logs r.2) = Some (INFO, M_complete))
  ∧ (∀ e, r.1 = Raise e →
          new_logs w r.2
          = (INFO, M_invoked) :: match name_of data with
                                 | Some n => validated_logs n
                                 | None => []
                                 end)
  ∧ (∀ e, r.1 = Raise e →
          emitted INFO (new_logs w r.2)
          = (INFO, M_invoked)
            :: match name_of data with
               | Some n => [(INFO, H_received (PyStr SOURCE_BUCKET) n);
                            (INFO, H_validated SOURCE_BUCKET n)]
               | None => []
               end)
  ∧ (name_of data = None →
     calls r.2 = calls w ∧ objects r.2 = objects w
     ∧ r.1 = match dict_get data "name" (PyStr "") with
             | PyList l =>
                 if existsb is_slash l then Raise AttributeError else Ok ()
             | PyDict d =>
                 if existsb (λ kv, String.eqb kv.1 "/") d
                 then Raise AttributeError else Ok ()
             | _ => Raise TypeError
             end).
Proof.
  cbv zeta. rewrite data_ingest_process_unfold.
  set (w1 := add_log INFO M_invoked w).
  assert (∀ e, (match handle_gcs_event_data data w1 with
                | (Ok _, w') => (Ok (), add_log INFO M_complete w')
                | (Raise e, w') => (Raise e, w')
                end).1 = Raise e →
          new_logs w (match handle_gcs_event_data data w1 with
                      | (Ok _, w') => (Ok (), add_log INFO M_complete w')
                      | (Raise e, w') => (Raise e, w')
                      end).2
          = (INFO, M_invoked) :: match name_of data with
                                 | Some n => validated_logs n
                                 | None => []
                                 end) as Hraise.
  { intros e He.
    destruct (name_of data) as [n|] eqn:Hn.
    + destruct (handler_cases data w1 n Hn)
        as [(_ & Hr & _)|(_ & Hf & w0 & Hw0 & Hl0 & _)].
      { destruct (handle_gcs_event_data data w1) as [[[]|e'] w']; done. }
      rewrite Hw0 in He |- *.
      destruct (processing_outcome SOURCE_BUCKET n w0 Hf)
        as (ls & cs & Hl & _ & _ & Hcase). cbv zeta in Hcase.
      destruct (processing SOURCE_BUCKET n w0) as [[[]|e'] w']; [done|].
      cbn [fst snd] in *.
      destruct Hcase as [(e'' & _ & _ & _ & -> & _)|[(_ & _ & ? & _)|Hcase]];
        [|done|by destruct Hcase as (? & ? & _ & _ & ? & _)].
      apply new_logs_app. rewrite Hl, Hl0, app_nil_r. subst w1. cbn -[app].
      by rewrite <- app_assoc.
    + pose proof (handler_non_string data w1 Hn) as H. cbv zeta in H.
      destruct (dict_get data "name" (PyStr "")) as [| | | |s|l|d];
        try (rewrite H; by apply new_logs_app).
      * destruct (existsb _ l); [rewrite H; by apply new_logs_app|].
        destruct H as [H _].
        destruct (handle_gcs_event_data data w1) as [[[]|e'] w']; done.
      * destruct (existsb _ d); [rewrite H; by apply new_logs_app|].
        destruct H as [H _].
        destruct (handle_gcs_event_data data w1) as [[[]|e'] w']; done. }
  split; [|split; [|split]].
  - destruct (handle_gcs_event_data data w1) as [[[]|e] w']; [|done].
    intros _. cbn. apply last_snoc.
  - exact Hraise.
  - intros e He. rewrite (Hraise e He). by destruct (name_of data).
  - intros Hn. pose proof (handler_non_string data w1 Hn) as H. cbv zeta in H.
    destruct (dict_get data "name" (PyStr "")) as [| | | |s|l|d];
      try (by rewrite H).
    + destruct (existsb _ l); [by rewrite H|].
      destruct H as (H & Hc & Ho & _).
      destruct (handle_gcs_event_data data w1) as [[[]|e'] w']; done.
    + destruct (existsb _ d); [by rewrite H|].
      destruct H as (H & Hc & Ho & _).
      destruct (handle_gcs_event_data data w1) as [[[]|e'] w']; done.
Qed.

(** The entry point on names that are not strings: a list without the
    slash is filtered out, a list holding it and a null name raise. *)
Example entry_point_on_other_names :
  (data_ingest_process
     {[ "bucket" := PyStr SOURCE_BUCKET; "name" := PyList [PyStr "raw_data/a.txt"] ]}
     demo_world).1 = Ok ()
  ∧ (data_ingest_process
       {[ "bucket" := PyStr SOURCE_BUCKET; "name" := PyList [PyStr "/"] ]}
       demo_world).1 = Raise AttributeError
  ∧ (data_ingest_process
       {[ "bucket" := PyStr "another-bucket"; "name" := PyNone ]}
       demo_world).1 = Raise TypeError
  ∧ (data_ingest_process {[ "name" := PyInt 7 ]} demo_world).1 = Raise TypeError.
Proof. vm_compute. repeat split. Qed.

(** X16: the recovery path the handler relies on: after a partial
    relocation (copy done, delete rejected), delivering the same
    notification again completes it when the service lets the calls
    through: the handler returns normally, the object is gone from the
    source and its content is at the target. *)
Theorem X16_redelivery_completes_partial
    (data : Payload) (w : World) (n text : string) (e : Exn) :
  dict_get data "bucket" (PyStr "") = PyStr SOURCE_BUCKET →
  name_of data = Some n →
  folder_path n = SOURCE_FOLDER →
  let target := TARGET_FOLDER ++ "/" ++ blob_path n in
  accepted (faults w) (calls w)
    (fetch_calls SOURCE_BUCKET n
     ++ take 4 (move_calls SOURCE_BUCKET n SOURCE_BUCKET target)) →
  faults w (calls w ++ fetch_calls SOURCE_BUCKET n
            ++ take 4 (move_calls SOURCE_BUCKET n SOURCE_BUCKET target))%list
    (CDelete SOURCE_BUCKET n) = Some e →
  objects w !! (SOURCE_BUCKET, n) = Some text →
  let w1 := (handle_gcs_event_data data w).2 in
  accepted (faults w1) (calls w1)
    (fetch_calls SOURCE_BUCKET n ++ move_calls SOURCE_BUCKET n SOURCE_BUCKET target) →
  let r := handle_gcs_event_data data w1 in
  r.1 = Ok ()
  ∧ objects r.2 !! (SOURCE_BUCKET, n) = None
  ∧ objects r.2 !! (SOURCE_BUCKET, target) = Some text.
Proof.
  intros Hb Hn Hf target Hacc Hdel Hobj w1 Hacc1. cbv zeta.
  destruct (handler_partial_relocation data w n text e Hb Hn Hf Hacc Hdel Hobj)
    as (_ & Hsrc & _).
  destruct (handler_relocates data w1 n text Hb Hn Hf Hacc1 Hsrc)
    as (Hr & _ & H1 & H2 & _).
  done.
Qed.

Lemma X16_redelivery_completes_partial_witness :
  objects (handle_gcs_event_data demo_event flaky_world).2
    !! (SOURCE_BUCKET, "raw_data/a.txt") = Some sample_content
  ∧ objects (handle_gcs_event_data demo_event
               (handle_gcs_event_data demo_event flaky_world).2).2
      !! (SOURCE_BUCKET, "raw_data/a.txt") = None
  ∧ objects (handle_gcs_event_data demo_event
               (handle_gcs_event_data demo_event flaky_world).2).2
      !! (SOURCE_BUCKET, TARGET_FOLDER ++ "/" ++ blob_path "raw_data/a.txt")
    = Some sample_content.
Proof.
  split; [vm_compute; reflexivity|].
  destruct (X16_redelivery_completes_partial demo_event flaky_world
              "raw_data/a.txt" sample_content delete_refused)
    as (_ & H2 & H3).
  - reflexivity.
  - reflexivity.
  - reflexivity.
  - vm_compute. repeat split.
  - vm_compute. reflexivity.
  - reflexivity.
  - vm_compute. repeat split.
  - exact (conj H2 H3).
Defined.

(** ** Validation of names (modules/gcs.py, [_get_validated_names]) *)

Lemma validated_names_None self b n :
  validated_names self b n = None
  ↔ (truthy b = false ∧ self_bucket_name self = None)
    ∨ (truthy n = false ∧ self_blob_name self = None).
Proof.
  unfold validated_names, py_or.
  destruct self as [db dn]. cbn.
  destruct (truthy b) eqn:Eb, (truthy n) eqn:En.
  - destruct b; [|done]. destruct n; [|done]. intuition congruence.
  - destruct b; [|done]. destruct dn; intuition congruence.
  - destruct n; [|done]. destruct db; intuition congruence.
  - destruct db, dn; intuition congruence.
Qed.

(** X17: [_get_validated_names] rejects a name only when the argument is
    omitted or empty and the instance default is unset; in particular a
    default set to the empty string passes the validation.  It logs and
    returns, and never calls the storage library. *)
Theorem X17_validation_rejects_only_unset self b n ctx w :
  let r := _get_validated_names self b n ctx w in
  (r.1 = Ok None
   ↔ (truthy b = false ∧ self_bucket_name self = None)
     ∨ (truthy n = false ∧ self_blob_name self = None))
  ∧ (truthy b = false → truthy n = false →
     self_bucket_name self = Some "" → self_blob_name self = Some "" →
     r.1 = Ok (Some ("", "")))
  ∧ no_contact w r.2.
Proof.
  cbv zeta.
  destruct (get_validated_names_result self b n ctx w) as [Hr Hc].
  rewrite Hr. split; [|split; [|done]].
  - rewrite <- validated_names_None. split; congruence.
  - intros Eb En Hb Hn. unfold validated_names, py_or.
    by rewrite Eb, En, Hb, Hn.
Qed.
